(** * DetectionStatistics: the proctoring detection engine

    A shallow embedding of [src/components/DetectionStatistics.jsx]: the
    React component state ([useState] cells and [useRef] cells) becomes one
    record that every handler takes and returns; the values that come from
    outside the component (the BlazeFace and COCO-SSD predictions for a
    frame, the draw of [Math.random], the stream handed out by
    [getUserMedia]) are explicit inputs.

    Handlers run one after the other, each on the state the previous one
    left: React re-creates [runDetection] and its interval whenever
    [currentDetections] changes, so a tick closes over the flags of the
    latest render.  A handler running between the [await]s of a tick in
    flight is not modelled.

    Numbers: counters and statistics are JavaScript numbers that only ever
    hold integers, modelled as [Z] (the 2^53 precision limit is not
    modelled).  The pixel coordinates of a face, with which the code
    computes, are binary64 doubles: Rocq's primitive floats, whose
    operations round as JavaScript's do.  The doubles the code only
    passes on or compares with a constant (scores, object boxes,
    landmarks, the probability of a face, the random draw) are kept as
    real numbers: every double is a real number and no rounding is
    involved. *)

From Stdlib Require Import PrimFloat FloatOps SpecFloat.
From Stdlib Require Import QArith Qreals.
From Stdlib Require Import ZArith List Bool String Reals Lia Lra.
Import ListNotations.
Open Scope string_scope.
Open Scope list_scope.
Open Scope Z_scope.

(** ** Constants *)

Definition EAR_THRESHOLD : R := (2 / 10)%R.
Definition DROWSINESS_FRAMES : Z := 15.
Definition FOCUS_LOST_FRAMES : Z := 35.

(** ** The six detection types (the keys of [stats] and [currentDetections]) *)

Inductive DetectionType : Type :=
| FocusLost | FaceAbsent | MultipleFaces | PhoneDetected | NotesDetected | Drowsiness.

Definition DetectionType_eqb (a b : DetectionType) : bool :=
  match a, b with
  | FocusLost, FocusLost | FaceAbsent, FaceAbsent
  | MultipleFaces, MultipleFaces | PhoneDetected, PhoneDetected
  | NotesDetected, NotesDetected | Drowsiness, Drowsiness => true
  | _, _ => false
  end.

(** The six keys in the order the object literals of the source list them. *)
Definition allTypes : list DetectionType :=
  [FocusLost; FaceAbsent; MultipleFaces; PhoneDetected; NotesDetected; Drowsiness].

(** An object with exactly the six keys, as [stats] and [currentDetections]
    are.  [getKey k o] is [o[k]]; [setKey k v o] is [{...o, [k]: v}]. *)
Record PerType (A : Type) : Type := mkPerType {
  focusLost : A;
  faceAbsent : A;
  multipleFaces : A;
  phoneDetected : A;
  notesDetected : A;
  drowsiness : A
}.
Arguments mkPerType {A}.
Arguments focusLost {A}.
Arguments faceAbsent {A}.
Arguments multipleFaces {A}.
Arguments phoneDetected {A}.
Arguments notesDetected {A}.
Arguments drowsiness {A}.

Definition getKey {A} (k : DetectionType) (o : PerType A) : A :=
  match k with
  | FocusLost => focusLost o
  | FaceAbsent => faceAbsent o
  | MultipleFaces => multipleFaces o
  | PhoneDetected => phoneDetected o
  | NotesDetected => notesDetected o
  | Drowsiness => drowsiness o
  end.

Definition setKey {A} (k : DetectionType) (v : A) (o : PerType A) : PerType A :=
  match k with
  | FocusLost => mkPerType v (faceAbsent o) (multipleFaces o) (phoneDetected o) (notesDetected o) (drowsiness o)
  | FaceAbsent => mkPerType (focusLost o) v (multipleFaces o) (phoneDetected o) (notesDetected o) (drowsiness o)
  | MultipleFaces => mkPerType (focusLost o) (faceAbsent o) v (phoneDetected o) (notesDetected o) (drowsiness o)
  | PhoneDetected => mkPerType (focusLost o) (faceAbsent o) (multipleFaces o) v (notesDetected o) (drowsiness o)
  | NotesDetected => mkPerType (focusLost o) (faceAbsent o) (multipleFaces o) (phoneDetected o) v (drowsiness o)
  | Drowsiness => mkPerType (focusLost o) (faceAbsent o) (multipleFaces o) (phoneDetected o) (notesDetected o) v
  end.

(** [Object.values(o)], in key order. *)
Definition values {A} (o : PerType A) : list A :=
  map (fun k => getKey k o) allTypes.

Definition allKeys {A} (v : A) : PerType A := mkPerType v v v v v v.

(** ** Values exchanged with the browser and the models *)

(** A media stream is its tracks; [stop()] on a track ends it. *)
Inductive TrackState : Type := TrackLive | TrackEnded.

Record MediaStream : Type := mkMediaStream {
  tracks : list TrackState;
  streamWidth : Z;
  streamHeight : Z
}.

(** The [<video>] element behind [videoRef]: the fields the source touches. *)
Record HTMLVideoElement : Type := mkVideo {
  srcObject : option MediaStream;
  videoWidth : Z;
  videoHeight : Z
}.

(** One BlazeFace prediction, as [estimateFaces(video, false)] returns it. *)
Record BlazePrediction : Type := mkBlazePrediction {
  topLeft : float * float;
  bottomRight : float * float;
  probability : R;
  landmarks : option (list (R * R))
}.

(** One COCO-SSD prediction, as [detect(video)] returns it. *)
Record CocoPrediction : Type := mkCocoPrediction {
  class : string;
  score : R;
  bbox : R * R * R * R
}.

(** The face object built by [detectFacesTF]. *)
Record Face : Type := mkFace {
  face_x : float;
  face_y : float;
  face_width : float;
  face_height : float;
  centerX : float;
  centerY : float;
  face_probability : R;
  face_landmarks : option (list (R * R))
}.

(** The object built by [detectObjectsTF]. *)
Record DetectedObject : Type := mkDetectedObject {
  obj_class : string;
  confidence : R;
  obj_bbox : R * R * R * R
}.

(** An entry of [detectionResults]: [{ type, active }]. *)
Record DetectionResult : Type := mkResult {
  type : DetectionType;
  active : bool
}.

(** What one run of [runDetection] reads from outside the component. *)
Record TickInput : Type := mkTickInput {
  facePredictions : list BlazePrediction;
  objectPredictions : list CocoPrediction;
  random : R
}.

(** ** Component state *)

(** The [useState] cells and the [useRef] cells of the component.  A model
    ref holds a loaded model or null; the model is opaque here, its output
    arrives in [TickInput].  [lastFacePosition] is declared by the source
    and never read or written, and is left out. *)
Record State : Type := mkState {
  stats : PerType Z;
  currentDetections : PerType bool;
  isMonitoring : bool;
  cameraActive : bool;
  modelsLoaded : bool;
  loadingStatus : string;
  detectionResults : list DetectionResult;
  videoRef : option HTMLVideoElement;
  streamRef : option MediaStream;
  blazeFaceModelRef : option unit;
  cocoSsdModelRef : option unit;
  focusLostFrames : Z;
  drowsyFrames : Z
}.

Definition set_stats (v : PerType Z) (s : State) : State :=
  mkState v (currentDetections s) (isMonitoring s) (cameraActive s) (modelsLoaded s)
    (loadingStatus s) (detectionResults s) (videoRef s) (streamRef s)
    (blazeFaceModelRef s) (cocoSsdModelRef s) (focusLostFrames s) (drowsyFrames s).

Definition set_currentDetections (v : PerType bool) (s : State) : State :=
  mkState (stats s) v (isMonitoring s) (cameraActive s) (modelsLoaded s)
    (loadingStatus s) (detectionResults s) (videoRef s) (streamRef s)
    (blazeFaceModelRef s) (cocoSsdModelRef s) (focusLostFrames s) (drowsyFrames s).

Definition set_isMonitoring (v : bool) (s : State) : State :=
  mkState (stats s) (currentDetections s) v (cameraActive s) (modelsLoaded s)
    (loadingStatus s) (detectionResults s) (videoRef s) (streamRef s)
    (blazeFaceModelRef s) (cocoSsdModelRef s) (focusLostFrames s) (drowsyFrames s).

Definition set_cameraActive (v : bool) (s : State) : State :=
  mkState (stats s) (currentDetections s) (isMonitoring s) v (modelsLoaded s)
    (loadingStatus s) (detectionResults s) (videoRef s) (streamRef s)
    (blazeFaceModelRef s) (cocoSsdModelRef s) (focusLostFrames s) (drowsyFrames s).

Definition set_modelsLoaded (v : bool) (s : State) : State :=
  mkState (stats s) (currentDetections s) (isMonitoring s) (cameraActive s) v
    (loadingStatus s) (detectionResults s) (videoRef s) (streamRef s)
    (blazeFaceModelRef s) (cocoSsdModelRef s) (focusLostFrames s) (drowsyFrames s).

Definition set_loadingStatus (v : string) (s : State) : State :=
  mkState (stats s) (currentDetections s) (isMonitoring s) (cameraActive s) (modelsLoaded s)
    v (detectionResults s) (videoRef s) (streamRef s)
    (blazeFaceModelRef s) (cocoSsdModelRef s) (focusLostFrames s) (drowsyFrames s).

Definition set_detectionResults (v : list DetectionResult) (s : State) : State :=
  mkState (stats s) (currentDetections s) (isMonitoring s) (cameraActive s) (modelsLoaded s)
    (loadingStatus s) v (videoRef s) (streamRef s)
    (blazeFaceModelRef s) (cocoSsdModelRef s) (focusLostFrames s) (drowsyFrames s).

Definition set_videoRef (v : option HTMLVideoElement) (s : State) : State :=
  mkState (stats s) (currentDetections s) (isMonitoring s) (cameraActive s) (modelsLoaded s)
    (loadingStatus s) (detectionResults s) v (streamRef s)
    (blazeFaceModelRef s) (cocoSsdModelRef s) (focusLostFrames s) (drowsyFrames s).

Definition set_streamRef (v : option MediaStream) (s : State) : State :=
  mkState (stats s) (currentDetections s) (isMonitoring s) (cameraActive s) (modelsLoaded s)
    (loadingStatus s) (detectionResults s) (videoRef s) v
    (blazeFaceModelRef s) (cocoSsdModelRef s) (focusLostFrames s) (drowsyFrames s).

Definition set_blazeFaceModelRef (v : option unit) (s : State) : State :=
  mkState (stats s) (currentDetections s) (isMonitoring s) (cameraActive s) (modelsLoaded s)
    (loadingStatus s) (detectionResults s) (videoRef s) (streamRef s)
    v (cocoSsdModelRef s) (focusLostFrames s) (drowsyFrames s).

Definition set_cocoSsdModelRef (v : option unit) (s : State) : State :=
  mkState (stats s) (currentDetections s) (isMonitoring s) (cameraActive s) (modelsLoaded s)
    (loadingStatus s) (detectionResults s) (videoRef s) (streamRef s)
    (blazeFaceModelRef s) v (focusLostFrames s) (drowsyFrames s).

Definition set_focusLostFrames (v : Z) (s : State) : State :=
  mkState (stats s) (currentDetections s) (isMonitoring s) (cameraActive s) (modelsLoaded s)
    (loadingStatus s) (detectionResults s) (videoRef s) (streamRef s)
    (blazeFaceModelRef s) (cocoSsdModelRef s) v (drowsyFrames s).

Definition set_drowsyFrames (v : Z) (s : State) : State :=
  mkState (stats s) (currentDetections s) (isMonitoring s) (cameraActive s) (modelsLoaded s)
    (loadingStatus s) (detectionResults s) (videoRef s) (streamRef s)
    (blazeFaceModelRef s) (cocoSsdModelRef s) (focusLostFrames s) v.

(** The state of the first render: the [useState] and [useRef] initialisers. *)
Definition initialState : State :=
  mkState (allKeys 0) (allKeys false) false false false EmptyString []
    None None None None 0 0.

Definition isNull {A} (o : option A) : bool :=
  match o with None => true | Some _ => false end.

(** ** Model loading ([loadModels], run once on mount) *)

(** [loadModels] from its first line to its last.  It suspends at its two
    [await]s; what can run in between (mounting, a click on reset) writes
    none of the cells written here and reads none of them, so the order
    of the interleaving does not show in the state reached. *)
Definition loadModels (s : State) : State :=
  let s := set_loadingStatus "Loading models..." s in
  let s := set_blazeFaceModelRef (Some tt) s in
  let s := set_cocoSsdModelRef (Some tt) s in
  let s := set_modelsLoaded true s in
  set_loadingStatus EmptyString s.

(** React attaches the [<video>] element to [videoRef] when the component
    is mounted. *)
Definition mount (s : State) : State :=
  set_videoRef (Some (mkVideo None 0 0)) s.

(** ** Camera handling *)

(** How a call of [startCamera] goes: [getUserMedia] rejects; or it hands
    out a stream and [play()] rejects; or the element plays the stream. *)
Inductive CameraOutcome : Type :=
| Denied
| PlayRejected (stream : MediaStream)
| Playing (stream : MediaStream).

(** [startCamera]: the boolean tells whether the promise resolved; when it
    is false the function threw at the [await] that rejected, after the
    writes made so far.  Once the element plays the stream, the browser
    reports the stream's frame size as [videoWidth] and [videoHeight]. *)
Definition startCamera (outcome : CameraOutcome) (s : State) : State * bool :=
  match outcome with
  | Denied => (s, false)
  | PlayRejected stream =>
      let s := set_streamRef (Some stream) s in
      match videoRef s with
      | Some v =>
          (set_videoRef (Some (mkVideo (Some stream) (videoWidth v) (videoHeight v))) s, false)
      | None => (set_cameraActive true s, true)
      end
  | Playing stream =>
      let s := set_streamRef (Some stream) s in
      let s :=
        match videoRef s with
        | Some _ =>
            set_videoRef (Some (mkVideo (Some stream) (streamWidth stream) (streamHeight stream))) s
        | None => s
        end in
      (set_cameraActive true s, true)
  end.

Definition stopTracks (m : MediaStream) : MediaStream :=
  mkMediaStream (map (fun _ => TrackEnded) (tracks m)) (streamWidth m) (streamHeight m).

Definition stopCamera (s : State) : State :=
  let s := set_streamRef (option_map stopTracks (streamRef s)) s in
  let s :=
    match videoRef s with
    | Some v => set_videoRef (Some (mkVideo None (videoWidth v) (videoHeight v))) s
    | None => s
    end in
  set_cameraActive false s.

(** ** Face and object detection *)

Definition detectFacesTF (s : State) (videoElement : option HTMLVideoElement)
    (predictions : list BlazePrediction) : list Face :=
  if isNull (blazeFaceModelRef s) || isNull videoElement then []
  else
    map (fun pred =>
           mkFace (fst (topLeft pred)) (snd (topLeft pred))
                  (fst (bottomRight pred) - fst (topLeft pred))%float
                  (snd (bottomRight pred) - snd (topLeft pred))%float
                  ((fst (topLeft pred) + fst (bottomRight pred)) / 2)%float
                  ((snd (topLeft pred) + snd (bottomRight pred)) / 2)%float
                  (probability pred)
                  (landmarks pred))
        predictions.

(** [["cell phone","book"].includes(c)] *)
Definition includes (l : list string) (c : string) : bool :=
  existsb (fun x => String.eqb x c) l.

Definition detectObjectsTF (s : State) (videoElement : option HTMLVideoElement)
    (predictions : list CocoPrediction) : list DetectedObject :=
  if isNull (cocoSsdModelRef s) || isNull videoElement then []
  else
    map (fun pred =>
           mkDetectedObject
             (if String.eqb (class pred) "cell phone" then "phone" else "book")
             (score pred) (bbox pred))
        (filter (fun pred => includes ["cell phone"; "book"] (class pred)) predictions).

(** ** The two hysteresis trackers *)

(** [v || d] on a number that may be undefined: the default is taken when
    the left operand is undefined or 0. *)
Definition orDefault (v : option Z) (d : Z) : Z :=
  match v with
  | Some n => if n =? 0 then d else n
  | None => d
  end.

(** The double that holds an integer: exact below 2^53, as every size and
    counter here is. *)
Fixpoint positiveToDouble (p : positive) : float :=
  match p with
  | xH => 1
  | xO q => 2 * positiveToDouble q
  | xI q => 2 * positiveToDouble q + 1
  end%float.

Definition toDouble (z : Z) : float :=
  match z with
  | Z0 => 0
  | Zpos p => positiveToDouble p
  | Zneg p => - positiveToDouble p
  end%float.

Definition videoW (s : State) : float :=
  toDouble (orDefault (option_map videoWidth (videoRef s)) 640).
Definition videoH (s : State) : float :=
  toDouble (orDefault (option_map videoHeight (videoRef s)) 480).

(** [a > b] on doubles: false as soon as one of them is NaN. *)
Definition float_gt (a b : float) : bool := (b <? a)%float.

(** [Math.min(a, b)]: NaN if either is NaN, and -0 counts as less than +0. *)
Definition Math_min (a b : float) : float :=
  if is_nan a then a
  else if is_nan b then b
  else if (a <? b)%float then a
  else if (b <? a)%float then b
  else if get_sign a then a else b.

(** The distance of the face centre from the centre of the video, as
    [detectFocusLoss] computes it. *)
Definition drift (s : State) (face : Face) : float :=
  let dX := PrimFloat.abs (centerX face - videoW s / 2) in
  let dY := PrimFloat.abs (centerY face - videoH s / 2) in
  PrimFloat.sqrt (dX * dX + dY * dY)%float.

Definition detectFocusLoss (s : State) (face : option Face) : State * bool :=
  match face with
  | None =>
      let s := set_focusLostFrames (focusLostFrames s + 1) s in
      (s, focusLostFrames s >=? FOCUS_LOST_FRAMES)
  | Some face =>
      let s :=
        if float_gt (drift s face) (Math_min (videoW s) (videoH s) / 4)
        then set_focusLostFrames (focusLostFrames s + 1) s
        else set_focusLostFrames (Z.max 0 (focusLostFrames s - 1)) s in
      (s, focusLostFrames s >=? FOCUS_LOST_FRAMES)
  end.

(** [!face || !face.landmarks] *)
Definition noLandmarks (face : option Face) : bool :=
  match face with
  | None => true
  | Some f => isNull (face_landmarks f)
  end.

(** [rnd] is the value [Math.random()] returns when it is called. *)
Definition detectDrowsiness (s : State) (face : option Face) (rnd : R) : State * bool :=
  if noLandmarks face then (set_drowsyFrames 0 s, false)
  else
    let isClosed := if Rlt_dec rnd (8 / 100) then true else false in
    let s := set_drowsyFrames (if isClosed then drowsyFrames s + 1 else 0) s in
    (s, drowsyFrames s >=? DROWSINESS_FRAMES).

(** ** Statistics *)

Definition triggerDetection (detectionType : DetectionType) (s : State) : State :=
  let s := set_stats (setKey detectionType (getKey detectionType (stats s) + 1) (stats s)) s in
  set_currentDetections (setKey detectionType true (currentDetections s)) s.

Definition clearDetection (detectionType : DetectionType) (s : State) : State :=
  set_currentDetections (setKey detectionType false (currentDetections s)) s.

Definition resetStats (s : State) : State :=
  let s := set_stats (mkPerType 0 0 0 0 0 0) s in
  let s := set_currentDetections (mkPerType false false false false false false) s in
  let s := set_drowsyFrames 0 s in
  set_focusLostFrames 0 s.

(** ** The detection loop *)

(** The block [runDetection] repeats for each detection type: [cur] is the
    [currentDetections] object the callback closed over, [detected] the
    condition of the [if], [results] the local array being filled. *)
Definition report (cur : PerType bool) (k : DetectionType) (detected : bool)
    (acc : State * list DetectionResult) : State * list DetectionResult :=
  let (s, results) := acc in
  if detected
  then ((if negb (getKey k cur) then triggerDetection k s else s),
        results ++ [mkResult k true])
  else ((if getKey k cur then clearDetection k s else s),
        results ++ [mkResult k false]).

(** The guard on the first line of [runDetection]. *)
Definition skipped (s : State) : bool :=
  isNull (videoRef s) || negb (cameraActive s) || negb (modelsLoaded s).

Definition some {A} (p : A -> bool) (l : list A) : bool := existsb p l.

Definition runDetection (s : State) (inp : TickInput) : State :=
  if skipped s then s
  else
    let cur := currentDetections s in
    let faces := detectFacesTF s (videoRef s) (facePredictions inp) in
    let objects := detectObjectsTF s (videoRef s) (objectPredictions inp) in
    let mainFace := nth_error faces 0 in
    let acc := report cur FaceAbsent (isNull mainFace) (s, []) in
    let acc := report cur MultipleFaces (Z.of_nat (List.length faces) >? 1) acc in
    let (s1, focusLost) := detectFocusLoss (fst acc) mainFace in
    let acc := report cur FocusLost focusLost (s1, snd acc) in
    let (s2, isDrowsy) := detectDrowsiness (fst acc) mainFace (random inp) in
    let acc := report cur Drowsiness isDrowsy (s2, snd acc) in
    let phoneDetected := some (fun obj => String.eqb (obj_class obj) "phone") objects in
    let notesDetected := some (fun obj => String.eqb (obj_class obj) "book") objects in
    let acc := report cur PhoneDetected phoneDetected acc in
    let acc := report cur NotesDetected notesDetected acc in
    set_detectionResults (snd acc) (fst acc).

(** The effect that owns the interval: a timer calling [runDetection] every
    300 ms exists exactly while this condition holds. *)
Definition intervalArmed (s : State) : bool :=
  isMonitoring s && cameraActive s && modelsLoaded s.

(** When [startCamera] throws, the handler stops there: [isMonitoring] is
    not set. *)
Definition handleStartStop (outcome : CameraOutcome) (s : State) : State :=
  if negb (isMonitoring s) then
    if negb (cameraActive s) then
      let (s', resolved) := startCamera outcome s in
      if resolved then set_isMonitoring true s' else s'
    else set_isMonitoring true s
  else stopCamera (set_isMonitoring false s).

(** ** Severity *)

Definition getTotalViolations (s : State) : Z :=
  fold_left (fun t n => t + n) (values (stats s)) 0.

Record Severity : Type := mkSeverity { level : string; color : string }.

Definition getSeverityLevel (s : State) : Severity :=
  let t := getTotalViolations s in
  if t >=? 20 then mkSeverity "Critical" "text-red-700 bg-red-200"
  else if t >=? 15 then mkSeverity "High Risk" "text-red-600 bg-red-100"
  else if t >=? 8 then mkSeverity "Medium Risk" "text-yellow-600 bg-yellow-100"
  else if t >=? 3 then mkSeverity "Low Risk" "text-orange-600 bg-orange-100"
  else mkSeverity "Normal" "text-green-600 bg-green-100".

(** ** Everything that can happen to the component *)

Inductive Event : Type :=
| EvMount
| EvLoadModels
| EvStartStop (outcome : CameraOutcome)
| EvReset
| EvTick (inp : TickInput).

Definition step (s : State) (e : Event) : State :=
  match e with
  | EvMount => mount s
  | EvLoadModels => loadModels s
  | EvStartStop outcome => handleStartStop outcome s
  | EvReset => resetStats s
  | EvTick inp => runDetection s inp
  end.

Definition run (s : State) (evs : list Event) : State := fold_left step evs s.

(** A run of ticks only. *)
Definition runTicks (s : State) (inps : list TickInput) : State :=
  fold_left runDetection inps s.

(** ** Vocabulary of the properties *)

(** The primary face of a tick: [faces[0]]. *)
Definition mainFace (s : State) (inp : TickInput) : option Face :=
  nth_error (detectFacesTF s (videoRef s) (facePredictions inp)) 0.

(** The six conditions [runDetection] tests, in a state where the tick is
    not skipped: for each detection type, the boolean of its [if].  They
    are the [active] values the tick pushes ([tick_results] below). *)
Definition classifierOutputs (s : State) (inp : TickInput) : PerType bool :=
  let faces := detectFacesTF s (videoRef s) (facePredictions inp) in
  let objects := detectObjectsTF s (videoRef s) (objectPredictions inp) in
  {| focusLost := snd (detectFocusLoss s (mainFace s inp));
     faceAbsent := isNull (mainFace s inp);
     multipleFaces := Z.of_nat (List.length faces) >? 1;
     phoneDetected := some (fun obj => String.eqb (obj_class obj) "phone") objects;
     notesDetected := some (fun obj => String.eqb (obj_class obj) "book") objects;
     drowsiness := snd (detectDrowsiness s (mainFace s inp) (random inp)) |}.

(** The order in which [runDetection] pushes its entries. *)
Definition tickOrder : list DetectionType :=
  [FaceAbsent; MultipleFaces; FocusLost; Drowsiness; PhoneDetected; NotesDetected].

(** Number of false-to-true edges of a boolean signal whose value before
    the first sample is [prev]. *)
Fixpoint edges (prev : bool) (outs : list bool) : Z :=
  match outs with
  | [] => 0
  | b :: rest => (if negb prev && b then 1 else 0) + edges b rest
  end.

(** The outputs of detection type [k] over a run of ticks, one sample per
    tick that is not skipped. *)
Fixpoint outputTrace (k : DetectionType) (s : State) (inps : list TickInput) : list bool :=
  match inps with
  | [] => []
  | inp :: rest =>
      if skipped s then outputTrace k (runDetection s inp) rest
      else getKey k (classifierOutputs s inp) :: outputTrace k (runDetection s inp) rest
  end.






(** How many entries of a result array are about detection type [k]. *)
Definition entriesFor (k : DetectionType) (l : list DetectionResult) : nat :=
  List.length (filter (fun r => DetectionType_eqb (type r) k) l).

Definition isReset (e : Event) : bool :=
  match e with EvReset => true | _ => false end.

(** States that agree on everything a tick neither counts nor tracks. *)
Definition sameLifecycle (s t : State) : Prop :=
  isMonitoring s = isMonitoring t /\ cameraActive s = cameraActive t /\
  modelsLoaded s = modelsLoaded t /\ loadingStatus s = loadingStatus t /\
  videoRef s = videoRef t /\ streamRef s = streamRef t /\
  blazeFaceModelRef s = blazeFaceModelRef t /\ cocoSsdModelRef s = cocoSsdModelRef t.

(** What the block of [report] does to the state alone. *)
Definition settle (cur : PerType bool) (k : DetectionType) (detected : bool) (s : State) : State :=
  fst (report cur k detected (s, [])).

(** A state in which a tick runs: mounted, models loaded, camera granted. *)
Definition demoStream : MediaStream := mkMediaStream [TrackLive] 640 480.

Definition readyState : State :=
  run initialState
    [EvMount; EvLoadModels; EvStartStop (Playing demoStream)].

Definition emptyFrame : TickInput := mkTickInput [] [] 0%R.

Definition phoneFrame : TickInput :=
  mkTickInput [] [mkCocoPrediction "cell phone" (9 / 10)%R (0, 0, 1, 1)%R] 0%R.

(** A face whose box is centred in a 640x480 frame, one in its top-left
    corner, and one that carries no landmarks. *)
Definition someLandmarks : option (list (R * R)) := Some [(300, 220)%R; (340, 220)%R].



Definition bareFace : Face :=
  mkFace 270 190 100 100 320 240 1%R None.



Definition centredPrediction : BlazePrediction :=
  mkBlazePrediction (270, 190)%float (370, 290)%float 1%R someLandmarks.

(** A frame with one centred face carrying landmarks, drawn with eyes
    closed ([random] below 0.08). *)
Definition closedEyesFrame : TickInput := mkTickInput [centredPrediction] [] 0%R.

(** The last tick of a run that was not skipped: the state it started from
    and its input.  [acc] is the answer for the events already passed. *)
Fixpoint lastCompleted (s : State) (evs : list Event)
    (acc : option (State * TickInput)) : option (State * TickInput) :=
  match evs with
  | [] => acc
  | e :: rest =>
      let acc' :=
        match e with
        | EvTick inp => if skipped s then acc else Some (s, inp)
        | _ => acc
        end in
      lastCompleted (step s e) rest acc'
  end.

(** Once [modelsLoaded] is set, both model refs hold a model. *)
Definition modelsConsistent (s : State) : Prop :=
  modelsLoaded s = true ->
  blazeFaceModelRef s = Some tt /\ cocoSsdModelRef s = Some tt.

(** The primary face of a tick has landmarks. *)
Definition faceWithLandmarks (s : State) (inp : TickInput) : Prop :=
  exists f lm, mainFace s inp = Some f /\ face_landmarks f = Some lm.

(** ** What the page derives from the state *)

(** [Object.entries(currentDetections).filter(([_, active]) => active)]:
    the keys listed in the alerts panel. *)
Definition activeAlerts (s : State) : list DetectionType :=
  filter (fun k => getKey k (currentDetections s)) allTypes.



(** [detectionResults.slice(0, 6)]: the entries drawn over the video. *)
Definition overlayEntries (s : State) : list DetectionResult :=
  firstn 6 (detectionResults s).

(** ** More vocabulary *)

Definition isTick (e : Event) : bool :=
  match e with EvTick _ => true | _ => false end.

(** The five levels, from the last test of [getSeverityLevel] to the first. *)
Definition levelRank (l : string) : Z :=
  if String.eqb l "Critical" then 4
  else if String.eqb l "High Risk" then 3
  else if String.eqb l "Medium Risk" then 2
  else if String.eqb l "Low Risk" then 1
  else 0.

(** The detection types whose flag a tick raises. *)
Definition risingTypes (s : State) (inp : TickInput) : list DetectionType :=
  filter (fun k => getKey k (classifierOutputs s inp) && negb (getKey k (currentDetections s)))
         allTypes.

Definition allEnded (m : MediaStream) : Prop :=
  Forall (fun t => t = TrackEnded) (tracks m).

(** The face model returned nothing for this frame. *)
Definition noFace (inp : TickInput) : Prop := facePredictions inp = [].


(** The predictions [detectObjectsTF] keeps. *)
Definition relevant (pred : CocoPrediction) : bool :=
  String.eqb (class pred) "cell phone" || String.eqb (class pred) "book".

(** What holds of every state reached from the first render. *)
Definition sound (s : State) : Prop :=
  (forall k, 0 <= getKey k (stats s)) /\
  (forall k, (if getKey k (currentDetections s) then 1 else 0) <= getKey k (stats s)) /\
  (0 <= focusLostFrames s /\ 0 <= drowsyFrames s) /\
  (focusLost (currentDetections s) = (focusLostFrames s >=? FOCUS_LOST_FRAMES) /\
   drowsiness (currentDetections s) = (drowsyFrames s >=? DROWSINESS_FRAMES)) /\
  (faceAbsent (currentDetections s) && multipleFaces (currentDetections s) = false /\
   faceAbsent (currentDetections s) && drowsiness (currentDetections s) = false) /\
  (cameraActive s = isMonitoring s /\
   isMonitoring s && isNull (streamRef s) = false) /\
  (detectionResults s = [] \/ map type (detectionResults s) = tickOrder).

(** A frame whose draw says the eyes are open. *)
Definition openEyesFrame : TickInput := mkTickInput [centredPrediction] [] 1%R.

(** The primary face of the frame is there and the test of
    [detectFocusLoss] fails on it: the drift the code computes does not
    exceed the quarter of the smaller side it computes. *)
Definition nearCentre (s : State) (inp : TickInput) : Prop :=
  exists f, mainFace s inp = Some f /\
            float_gt (drift s f) (Math_min (videoW s) (videoH s) / 4) = false.

(** Every frame of the run is near the centre when its tick comes. *)
Fixpoint nearRun (s : State) (inps : list TickInput) : Prop :=
  match inps with
  | [] => True
  | inp :: rest => nearCentre s inp /\ nearRun (runDetection s inp) rest
  end.

(** * Properties *)

(** ** Objects with the six keys *)

Lemma getKey_setKey_same {A} (k : DetectionType) (v : A) (o : PerType A) :
  getKey k (setKey k v o) = v.
Proof. destruct k; reflexivity. Qed.

Lemma getKey_setKey_other {A} (k k' : DetectionType) (v : A) (o : PerType A) :
  k <> k' -> getKey k' (setKey k v o) = getKey k' o.
Proof. destruct k, k'; intros Hne; try reflexivity; now elim Hne. Qed.

(** ** The block applied for one detection type *)

Lemma report_settle cur k b s r :
  report cur k b (s, r) = (settle cur k b s, r ++ [mkResult k b]).
Proof. unfold settle, report. destruct b; reflexivity. Qed.

Lemma settle_sameLifecycle cur k b s : sameLifecycle (settle cur k b s) s.
Proof.
  unfold settle, report, sameLifecycle.
  destruct b, (getKey k cur); cbn; repeat split; reflexivity.
Qed.

Lemma settle_focusLostFrames cur k b s :
  focusLostFrames (settle cur k b s) = focusLostFrames s.
Proof. unfold settle, report. destruct b, (getKey k cur); reflexivity. Qed.

Lemma settle_drowsyFrames cur k b s :
  drowsyFrames (settle cur k b s) = drowsyFrames s.
Proof. unfold settle, report. destruct b, (getKey k cur); reflexivity. Qed.

Lemma settle_stats_same cur k b s :
  getKey k (stats (settle cur k b s)) =
  getKey k (stats s) + (if b && negb (getKey k cur) then 1 else 0).
Proof.
  unfold settle, report.
  destruct b, (getKey k cur); cbn; rewrite ?getKey_setKey_same; lia.
Qed.

Lemma settle_stats_other cur k k' b s :
  k <> k' -> getKey k' (stats (settle cur k b s)) = getKey k' (stats s).
Proof.
  intros Hne. unfold settle, report.
  destruct b, (getKey k cur); cbn; rewrite ?getKey_setKey_other by assumption; reflexivity.
Qed.

Lemma settle_cur_same cur k b s :
  getKey k (currentDetections s) = getKey k cur ->
  getKey k (currentDetections (settle cur k b s)) = b.
Proof.
  intros H. unfold settle, report.
  destruct b, (getKey k cur) eqn:E; cbn; rewrite ?getKey_setKey_same; congruence.
Qed.

Lemma settle_cur_other cur k k' b s :
  k <> k' -> getKey k' (currentDetections (settle cur k b s)) = getKey k' (currentDetections s).
Proof.
  intros Hne. unfold settle, report.
  destruct b, (getKey k cur); cbn; rewrite ?getKey_setKey_other by assumption; reflexivity.
Qed.

(** ** The trackers touch their own counter only *)

Lemma detectFocusLoss_fst s face :
  fst (detectFocusLoss s face) =
  set_focusLostFrames (focusLostFrames (fst (detectFocusLoss s face))) s.
Proof.
  unfold detectFocusLoss. destruct face as [f|]; [|reflexivity].
  destruct (float_gt _ _); reflexivity.
Qed.

Lemma detectFocusLoss_snd s face :
  snd (detectFocusLoss s face) =
  (focusLostFrames (fst (detectFocusLoss s face)) >=? FOCUS_LOST_FRAMES).
Proof.
  unfold detectFocusLoss. destruct face as [f|]; [|reflexivity].
  destruct (float_gt _ _); reflexivity.
Qed.

Lemma detectFocusLoss_congr s t face :
  focusLostFrames s = focusLostFrames t -> videoRef s = videoRef t ->
  snd (detectFocusLoss s face) = snd (detectFocusLoss t face) /\
  focusLostFrames (fst (detectFocusLoss s face)) =
  focusLostFrames (fst (detectFocusLoss t face)).
Proof.
  intros Hc Hv.
  assert (HW : videoW s = videoW t) by (unfold videoW; now rewrite Hv).
  assert (HH : videoH s = videoH t) by (unfold videoH; now rewrite Hv).
  unfold detectFocusLoss, drift. rewrite HW, HH.
  destruct face as [f|]; cbn [fst snd].
  - destruct (float_gt _ _); cbn [fst snd focusLostFrames set_focusLostFrames];
      rewrite Hc; split; reflexivity.
  - cbn [focusLostFrames set_focusLostFrames]. rewrite Hc; split; reflexivity.
Qed.

Lemma detectDrowsiness_fst s face rnd :
  fst (detectDrowsiness s face rnd) =
  set_drowsyFrames (drowsyFrames (fst (detectDrowsiness s face rnd))) s.
Proof.
  unfold detectDrowsiness. destruct (noLandmarks face); [reflexivity|].
  destruct (Rlt_dec _ _); reflexivity.
Qed.

Lemma detectDrowsiness_congr s t face rnd :
  drowsyFrames s = drowsyFrames t ->
  snd (detectDrowsiness s face rnd) = snd (detectDrowsiness t face rnd) /\
  drowsyFrames (fst (detectDrowsiness s face rnd)) =
  drowsyFrames (fst (detectDrowsiness t face rnd)).
Proof.
  intros Hc. unfold detectDrowsiness. destruct (noLandmarks face); cbn.
  - split; reflexivity.
  - destruct (Rlt_dec _ _); cbn; rewrite ?Hc; split; reflexivity.
Qed.

Lemma detectDrowsiness_no_landmarks s face rnd :
  noLandmarks face = true ->
  detectDrowsiness s face rnd = (set_drowsyFrames 0 s, false).
Proof. intros H. unfold detectDrowsiness. now rewrite H. Qed.

(** ** One tick, step by step *)

Lemma runDetection_skipped s inp : skipped s = true -> runDetection s inp = s.
Proof. intros H. unfold runDetection. now rewrite H. Qed.

Lemma runDetection_unfold s inp :
  skipped s = false ->
  runDetection s inp =
  let cur := currentDetections s in
  let c := classifierOutputs s inp in
  let a2 := settle cur MultipleFaces (multipleFaces c) (settle cur FaceAbsent (faceAbsent c) s) in
  let f := detectFocusLoss a2 (mainFace s inp) in
  let a3 := settle cur FocusLost (focusLost c) (fst f) in
  let d := detectDrowsiness a3 (mainFace s inp) (random inp) in
  let a4 := settle cur Drowsiness (drowsiness c) (fst d) in
  let a6 := settle cur NotesDetected (notesDetected c)
              (settle cur PhoneDetected (phoneDetected c) a4) in
  set_detectionResults (map (fun k => mkResult k (getKey k c)) tickOrder) a6.
Proof.
  intros Hs. unfold runDetection. rewrite Hs. fold (mainFace s inp).
  rewrite !report_settle.
  cbn [fst snd].
  set (cur := currentDetections s).
  set (a2 := settle cur MultipleFaces _ (settle cur FaceAbsent _ s)).
  assert (Hf : focusLostFrames a2 = focusLostFrames s)
    by (unfold a2; now rewrite !settle_focusLostFrames).
  assert (Hv : videoRef a2 = videoRef s).
  { unfold a2.
    destruct (settle_sameLifecycle cur MultipleFaces
                (Z.of_nat (List.length (detectFacesTF s (videoRef s) (facePredictions inp))) >? 1)
                (settle cur FaceAbsent (isNull (mainFace s inp)) s)) as (_ & _ & _ & _ & H1 & _).
    destruct (settle_sameLifecycle cur FaceAbsent (isNull (mainFace s inp)) s)
      as (_ & _ & _ & _ & H2 & _).
    congruence. }
  destruct (detectFocusLoss_congr a2 s (mainFace s inp) Hf Hv) as [Hfs _].
  destruct (detectFocusLoss a2 (mainFace s inp)) as [s1 fl] eqn:E1.
  rewrite report_settle. cbn [fst snd] in *.
  set (a3 := settle cur FocusLost fl s1).
  assert (Hd : drowsyFrames a3 = drowsyFrames s).
  { unfold a3. rewrite settle_drowsyFrames.
    change s1 with (fst (s1, fl)). rewrite <- E1, detectFocusLoss_fst. cbn.
    unfold a2. now rewrite !settle_drowsyFrames. }
  destruct (detectDrowsiness_congr a3 s (mainFace s inp) (random inp) Hd) as [Hds _].
  destruct (detectDrowsiness a3 (mainFace s inp) (random inp)) as [s2 dr] eqn:E2.
  rewrite !report_settle. cbn [fst snd] in *.
  unfold classifierOutputs. cbn [focusLost faceAbsent multipleFaces phoneDetected notesDetected drowsiness].
  cbn [tickOrder map getKey app focusLost faceAbsent multipleFaces
       phoneDetected notesDetected drowsiness].
  rewrite <- Hfs. fold a3. rewrite E2. cbn [fst snd]. rewrite <- Hds. reflexivity.
Qed.

Lemma detectFocusLoss_stats s face : stats (fst (detectFocusLoss s face)) = stats s.
Proof. now rewrite detectFocusLoss_fst. Qed.

Lemma detectFocusLoss_cur s face :
  currentDetections (fst (detectFocusLoss s face)) = currentDetections s.
Proof. now rewrite detectFocusLoss_fst. Qed.

Lemma detectFocusLoss_drowsyFrames s face :
  drowsyFrames (fst (detectFocusLoss s face)) = drowsyFrames s.
Proof. now rewrite detectFocusLoss_fst. Qed.

Lemma detectFocusLoss_sameLifecycle s face : sameLifecycle (fst (detectFocusLoss s face)) s.
Proof. rewrite detectFocusLoss_fst. repeat split. Qed.

Lemma detectDrowsiness_stats s face rnd : stats (fst (detectDrowsiness s face rnd)) = stats s.
Proof. now rewrite detectDrowsiness_fst. Qed.

Lemma detectDrowsiness_cur s face rnd :
  currentDetections (fst (detectDrowsiness s face rnd)) = currentDetections s.
Proof. now rewrite detectDrowsiness_fst. Qed.

Lemma detectDrowsiness_focusLostFrames s face rnd :
  focusLostFrames (fst (detectDrowsiness s face rnd)) = focusLostFrames s.
Proof. now rewrite detectDrowsiness_fst. Qed.

Lemma detectDrowsiness_sameLifecycle s face rnd :
  sameLifecycle (fst (detectDrowsiness s face rnd)) s.
Proof. rewrite detectDrowsiness_fst. repeat split. Qed.

Lemma sameLifecycle_trans s t u : sameLifecycle s t -> sameLifecycle t u -> sameLifecycle s u.
Proof. unfold sameLifecycle. intuition congruence. Qed.

Lemma sameLifecycle_refl s : sameLifecycle s s.
Proof. repeat split. Qed.

Lemma sameLifecycle_skipped s t : sameLifecycle s t -> skipped s = skipped t.
Proof.
  intros (_ & Hc & Hm & _ & Hv & _). unfold skipped. now rewrite Hc, Hm, Hv.
Qed.

Ltac peel :=
  repeat first
    [ rewrite settle_stats_other by discriminate
    | rewrite settle_cur_other by discriminate
    | rewrite settle_focusLostFrames
    | rewrite settle_drowsyFrames
    | rewrite detectFocusLoss_stats
    | rewrite detectFocusLoss_cur
    | rewrite detectFocusLoss_drowsyFrames
    | rewrite detectDrowsiness_stats
    | rewrite detectDrowsiness_cur
    | rewrite detectDrowsiness_focusLostFrames ].

(** The counter of [k] moves by one exactly when the output of [k] is true
    and its flag was false. *)
Lemma tick_stats s inp k :
  skipped s = false ->
  getKey k (stats (runDetection s inp)) =
  getKey k (stats s) +
  (if getKey k (classifierOutputs s inp) && negb (getKey k (currentDetections s))
   then 1 else 0).
Proof.
  intros Hs. rewrite runDetection_unfold by assumption. cbv zeta.
  change (stats (set_detectionResults ?r ?a)) with (stats a).
  destruct k; peel; rewrite settle_stats_same; peel; reflexivity.
Qed.

(** After a tick the flag of [k] is the output of [k]. *)
Lemma tick_cur s inp k :
  skipped s = false ->
  getKey k (currentDetections (runDetection s inp)) = getKey k (classifierOutputs s inp).
Proof.
  intros Hs. rewrite runDetection_unfold by assumption. cbv zeta.
  change (currentDetections (set_detectionResults ?r ?a)) with (currentDetections a).
  destruct k; peel; (rewrite settle_cur_same; [reflexivity | peel; reflexivity]).
Qed.

Lemma tick_results s inp :
  skipped s = false ->
  detectionResults (runDetection s inp) =
  map (fun k => mkResult k (getKey k (classifierOutputs s inp))) tickOrder.
Proof. intros Hs. rewrite runDetection_unfold by assumption. reflexivity. Qed.

Lemma tick_focusLostFrames s inp :
  skipped s = false ->
  focusLostFrames (runDetection s inp) =
  focusLostFrames (fst (detectFocusLoss s (mainFace s inp))).
Proof.
  intros Hs. rewrite runDetection_unfold by assumption. cbv zeta.
  change (focusLostFrames (set_detectionResults ?r ?a)) with (focusLostFrames a).
  peel.
  apply detectFocusLoss_congr.
  - now peel.
  - destruct (settle_sameLifecycle (currentDetections s) MultipleFaces
                (multipleFaces (classifierOutputs s inp))
                (settle (currentDetections s) FaceAbsent
                   (faceAbsent (classifierOutputs s inp)) s)) as (_ & _ & _ & _ & H1 & _).
    destruct (settle_sameLifecycle (currentDetections s) FaceAbsent
                (faceAbsent (classifierOutputs s inp)) s) as (_ & _ & _ & _ & H2 & _).
    congruence.
Qed.

Lemma tick_drowsyFrames s inp :
  skipped s = false ->
  drowsyFrames (runDetection s inp) =
  drowsyFrames (fst (detectDrowsiness s (mainFace s inp) (random inp))).
Proof.
  intros Hs. rewrite runDetection_unfold by assumption. cbv zeta.
  change (drowsyFrames (set_detectionResults ?r ?a)) with (drowsyFrames a).
  peel.
  apply detectDrowsiness_congr. now peel.
Qed.

Lemma tick_sameLifecycle s inp : sameLifecycle (runDetection s inp) s.
Proof.
  destruct (skipped s) eqn:Hs.
  - rewrite runDetection_skipped by assumption. apply sameLifecycle_refl.
  - rewrite runDetection_unfold by assumption. cbv zeta.
    eapply sameLifecycle_trans with (t := settle _ _ _ _); [repeat split|].
    repeat (eapply sameLifecycle_trans;
            [first [apply settle_sameLifecycle | apply detectFocusLoss_sameLifecycle
                   | apply detectDrowsiness_sameLifecycle]|]).
    apply sameLifecycle_refl.
Qed.

(** ** Runs *)

Lemma run_app s evs1 evs2 : run s (evs1 ++ evs2) = run (run s evs1) evs2.
Proof. unfold run. apply fold_left_app. Qed.

Lemma runTicks_cons s inp rest : runTicks s (inp :: rest) = runTicks (runDetection s inp) rest.
Proof. reflexivity. Qed.

Lemma handleStartStop_stats outcome s :
  stats (handleStartStop outcome s) = stats s /\
  currentDetections (handleStartStop outcome s) = currentDetections s /\
  focusLostFrames (handleStartStop outcome s) = focusLostFrames s /\
  drowsyFrames (handleStartStop outcome s) = drowsyFrames s.
Proof.
  unfold handleStartStop, startCamera, stopCamera.
  destruct (isMonitoring s), (cameraActive s), outcome as [|m|m]; cbn;
    destruct (videoRef s); cbn; repeat split; reflexivity.
Qed.

(** Whatever happens except a reset, no counter goes down. *)
Lemma step_stats_monotone s e k :
  isReset e = false -> getKey k (stats s) <= getKey k (stats (step s e)).
Proof.
  intros He. destruct e as [| |g| |inp]; cbn in *; try discriminate; try lia.
  - destruct (handleStartStop_stats g s) as [H _]. rewrite H. lia.
  - destruct (skipped s) eqn:Hs.
    + rewrite runDetection_skipped by assumption. lia.
    + rewrite tick_stats by assumption.
      destruct (getKey k (classifierOutputs s inp) && negb (getKey k (currentDetections s))); lia.
Qed.

(** ** Edge-triggered counting *)

(** C1: for every run of ticks and every detection type, the counter after
    the run is the counter before it plus the number of false-to-true edges
    of that type's output over the ticks of the run, the signal starting
    from the flag held before the run; from a state with the counter at 0
    and the flag down (after a reset) the counter is the number of edges.
    A counter never goes down on anything but a reset, and a tick that
    finds the flag already up leaves the counter as it is. *)
Theorem count_equals_rising_edges :
  forall (k : DetectionType) (s : State) (inps : list TickInput)
         (inp : TickInput) (e : Event),
    getKey k (stats (runTicks s inps)) =
      getKey k (stats s) + edges (getKey k (currentDetections s)) (outputTrace k s inps)
    /\ getKey k (stats (runTicks (resetStats s) inps)) =
         edges false (outputTrace k (resetStats s) inps)
    /\ (isReset e = false -> getKey k (stats s) <= getKey k (stats (step s e)))
    /\ (getKey k (currentDetections s) = true ->
        getKey k (stats (runDetection s inp)) = getKey k (stats s)).
Proof.
  intros k s inps inp e.
  assert (Hmain : forall l t,
             getKey k (stats (runTicks t l)) =
             getKey k (stats t) + edges (getKey k (currentDetections t)) (outputTrace k t l)).
  { induction l as [|i l IH]; intros t.
    - cbn. lia.
    - rewrite runTicks_cons, IH. cbn [outputTrace].
      destruct (skipped t) eqn:Hs.
      + now rewrite runDetection_skipped by assumption.
      + rewrite tick_stats, tick_cur by assumption. cbn [edges].
        rewrite andb_comm. lia. }
  split; [apply Hmain|].
  split.
  { rewrite Hmain. destruct k; reflexivity. }
  split; [apply step_stats_monotone|].
  intros Hact. destruct (skipped s) eqn:Hs.
  - now rewrite runDetection_skipped by assumption.
  - rewrite tick_stats by assumption. rewrite Hact, andb_false_r. lia.
Qed.

Lemma count_equals_rising_edges_witness :
  getKey PhoneDetected
    (stats (runTicks readyState [phoneFrame; phoneFrame; emptyFrame; phoneFrame])) = 2
  /\ getKey PhoneDetected (stats readyState)
     <= getKey PhoneDetected (stats (step readyState (EvTick phoneFrame)))
  /\ getKey PhoneDetected
       (stats (runDetection (runDetection readyState phoneFrame) phoneFrame)) = 1.
Proof.
  split; [|split].
  - destruct (count_equals_rising_edges PhoneDetected readyState
                [phoneFrame; phoneFrame; emptyFrame; phoneFrame] phoneFrame EvMount)
      as (H & _).
    rewrite H. vm_compute. reflexivity.
  - destruct (count_equals_rising_edges PhoneDetected readyState [] phoneFrame
                (EvTick phoneFrame)) as (_ & _ & H & _).
    apply H. reflexivity.
  - destruct (count_equals_rising_edges PhoneDetected (runDetection readyState phoneFrame)
                [] phoneFrame EvMount) as (_ & _ & _ & H).
    rewrite H; vm_compute; reflexivity.
Defined.

(** Thirty-five ticks in a row without a face: the face-absent counter is
    1 with its flag up, and focus loss is raised on the thirty-fifth tick,
    not on the thirty-fourth. *)
Example thirty_five_empty_frames :
  let s34 := runTicks readyState (repeat emptyFrame 34) in
  let s35 := runTicks readyState (repeat emptyFrame 35) in
  getKey FocusLost (currentDetections s34) = false
  /\ getKey FocusLost (stats s34) = 0
  /\ getKey FaceAbsent (stats s35) = 1
  /\ getKey FaceAbsent (currentDetections s35) = true
  /\ getKey FocusLost (currentDetections s35) = true
  /\ getKey FocusLost (stats s35) = 1.
Proof. vm_compute. repeat split. Qed.

(** A phone seen on one tick and gone on the next is counted once and its
    flag is down again; a reset then brings the level back to Normal. *)
Example phone_then_nothing :
  let s := runTicks readyState [phoneFrame; emptyFrame] in
  getKey PhoneDetected (stats s) = 1
  /\ getKey PhoneDetected (currentDetections s) = false
  /\ values (stats (resetStats s)) = [0; 0; 0; 0; 0; 0]
  /\ level (getSeverityLevel (resetStats s)) = "Normal".
Proof. vm_compute. repeat split. Qed.

(** ** Severity *)

Lemma getTotalViolations_sum s :
  getTotalViolations s =
  focusLost (stats s) + faceAbsent (stats s) + multipleFaces (stats s) +
  phoneDetected (stats s) + notesDetected (stats s) + drowsiness (stats s).
Proof. unfold getTotalViolations, values. cbn. lia. Qed.

(** C2: the total is the sum of the six counters, and the level is
    Critical from 20 up, High Risk from 15 to 19, Medium Risk from 8 to 14,
    Low Risk from 3 to 7 and Normal from 0 to 2. *)
Theorem severity_bands :
  forall (s : State),
    let t := getTotalViolations s in
    t = focusLost (stats s) + faceAbsent (stats s) + multipleFaces (stats s) +
        phoneDetected (stats s) + notesDetected (stats s) + drowsiness (stats s)
    /\ (20 <= t -> level (getSeverityLevel s) = "Critical")
    /\ (15 <= t <= 19 -> level (getSeverityLevel s) = "High Risk")
    /\ (8 <= t <= 14 -> level (getSeverityLevel s) = "Medium Risk")
    /\ (3 <= t <= 7 -> level (getSeverityLevel s) = "Low Risk")
    /\ (0 <= t <= 2 -> level (getSeverityLevel s) = "Normal").
Proof.
  intros s t. split; [apply getTotalViolations_sum|].
  unfold getSeverityLevel. fold t.
  repeat split; intros H;
    destruct (Z.geb_spec t 20); try lia;
    destruct (Z.geb_spec t 15); try lia;
    destruct (Z.geb_spec t 8); try lia;
    destruct (Z.geb_spec t 3); try lia; reflexivity.
Qed.

Lemma severity_bands_witness :
  let total n := set_stats (mkPerType n 0 0 0 0 0) initialState in
  level (getSeverityLevel (total 20)) = "Critical"
  /\ level (getSeverityLevel (total 19)) = "High Risk"
  /\ level (getSeverityLevel (total 8)) = "Medium Risk"
  /\ level (getSeverityLevel (total 7)) = "Low Risk"
  /\ level (getSeverityLevel (total 0)) = "Normal".
Proof.
  intros total. split; [|split; [|split; [|split]]].
  - apply (severity_bands (total 20)). vm_compute. discriminate.
  - apply (severity_bands (total 19)). vm_compute. split; discriminate.
  - apply (severity_bands (total 8)). vm_compute. split; discriminate.
  - apply (severity_bands (total 7)). vm_compute. split; discriminate.
  - apply (severity_bands (total 0)). vm_compute. split; discriminate.
Defined.

(** ** The focus tracker *)


Lemma readyState_frame (n : nat) :
  videoW (runTicks readyState (repeat emptyFrame n)) = 640%float /\
  videoH (runTicks readyState (repeat emptyFrame n)) = 480%float.
Proof.
  unfold videoW, videoH.
  assert (Hv : videoRef (runTicks readyState (repeat emptyFrame n)) = videoRef readyState).
  { generalize readyState. induction n as [|n IH]; intros t; [reflexivity|].
    cbn [repeat]. rewrite runTicks_cons, IH.
    apply (tick_sameLifecycle t emptyFrame). }
  rewrite Hv. split; reflexivity.
Qed.




(** ** The drowsiness tracker *)

(** C4: a call of the drowsiness tracker with no face, or with a face that
    carries no landmarks, sets the counter to 0 and returns false; nothing
    else is written. *)
Theorem detectDrowsiness_without_landmarks :
  forall (s : State) (face : option Face) (rnd : R),
    face = None \/ (exists f, face = Some f /\ face_landmarks f = None) ->
    drowsyFrames (fst (detectDrowsiness s face rnd)) = 0
    /\ snd (detectDrowsiness s face rnd) = false
    /\ fst (detectDrowsiness s face rnd) = set_drowsyFrames 0 s.
Proof.
  intros s face rnd H.
  assert (Hn : noLandmarks face = true).
  { destruct H as [->|(f & -> & Hl)]; cbn; [reflexivity|]. now rewrite Hl. }
  rewrite detectDrowsiness_no_landmarks by assumption.
  repeat split.
Qed.

Lemma detectDrowsiness_without_landmarks_witness :
  let s := set_drowsyFrames 14 readyState in
  (drowsyFrames (fst (detectDrowsiness s None 0%R)) = 0 /\
   snd (detectDrowsiness s None 0%R) = false)
  /\ (drowsyFrames (fst (detectDrowsiness s (Some bareFace) 0%R)) = 0 /\
      snd (detectDrowsiness s (Some bareFace) 0%R) = false).
Proof.
  intros s. split.
  - destruct (detectDrowsiness_without_landmarks s None 0%R) as (H1 & H2 & _).
    + left. reflexivity.
    + split; assumption.
  - destruct (detectDrowsiness_without_landmarks s (Some bareFace) 0%R) as (H1 & H2 & _).
    + right. exists bareFace. split; reflexivity.
    + split; assumption.
Defined.

(** ** Reset *)

(** C5: a second reset changes nothing; after a reset the six counters are
    0, the six flags are down and both tracker counters are 0. *)
Theorem resetStats_idempotent :
  forall (s : State),
    resetStats (resetStats s) = resetStats s
    /\ (forall k, getKey k (stats (resetStats s)) = 0)
    /\ (forall k, getKey k (currentDetections (resetStats s)) = false)
    /\ focusLostFrames (resetStats s) = 0
    /\ drowsyFrames (resetStats s) = 0.
Proof.
  intros s. split; [reflexivity|].
  split; [intros k; destruct k; reflexivity|].
  split; [intros k; destruct k; reflexivity|].
  split; reflexivity.
Qed.

(** ** Skipped ticks *)

(** C6: while the models are not loaded, or there is no video element or
    no active camera, a tick returns at its guard: the state it leaves is
    the state it found, counters, flags and tracker counters included, and
    whatever comes next, the next tick too, goes on from that same state. *)
Theorem unready_tick_is_skipped :
  forall (s : State) (inp : TickInput) (evs : list Event),
    modelsLoaded s = false \/ videoRef s = None \/ cameraActive s = false ->
    runDetection s inp = s
    /\ run s (EvTick inp :: evs) = run s evs.
Proof.
  intros s inp evs H.
  assert (Hs : skipped s = true).
  { unfold skipped. destruct H as [-> | [-> | ->]]; cbn.
    - apply orb_true_r.
    - reflexivity.
    - rewrite orb_true_r. reflexivity. }
  assert (Hr : runDetection s inp = s) by now apply runDetection_skipped.
  split; [exact Hr|].
  cbn [run fold_left step]. now rewrite Hr.
Qed.

Lemma unready_tick_is_skipped_witness :
  runDetection initialState phoneFrame = initialState
  /\ getKey PhoneDetected
       (stats (run initialState
                 [EvTick phoneFrame; EvMount; EvLoadModels;
                  EvStartStop (Playing demoStream); EvTick phoneFrame])) = 1.
Proof.
  destruct (unready_tick_is_skipped initialState phoneFrame
              [EvMount; EvLoadModels; EvStartStop (Playing demoStream); EvTick phoneFrame])
    as [H1 H2].
  - left. reflexivity.
  - split; [exact H1|]. rewrite H2. vm_compute. reflexivity.
Defined.

(** ** The snapshot of a tick *)

(** C8: a tick that is not skipped stores six entries in
    [detectionResults], one for each detection type and in a fixed order,
    each carrying the flag that type has after the tick, whether the flag
    moved or not. *)
Theorem tick_emits_full_snapshot :
  forall (s : State) (inp : TickInput),
    skipped s = false ->
    let s' := runDetection s inp in
    map type (detectionResults s') = tickOrder
    /\ List.length (detectionResults s') = 6%nat
    /\ (forall k, entriesFor k (detectionResults s') = 1%nat)
    /\ (forall k, In (mkResult k (getKey k (currentDetections s'))) (detectionResults s'))
    /\ detectionResults s' =
       map (fun k => mkResult k (getKey k (classifierOutputs s inp))) tickOrder.
Proof.
  intros s inp Hs s'. unfold s'.
  rewrite tick_results by assumption.
  split; [reflexivity|]. split; [reflexivity|].
  split; [intros k; destruct k; reflexivity|].
  split; [|reflexivity].
  intros k. rewrite tick_cur by assumption.
  apply (in_map (fun k => mkResult k (getKey k (classifierOutputs s inp)))).
  destruct k; cbn; tauto.
Qed.

Lemma tick_emits_full_snapshot_witness :
  detectionResults (runDetection (runDetection readyState phoneFrame) phoneFrame) =
  [mkResult FaceAbsent true; mkResult MultipleFaces false; mkResult FocusLost false;
   mkResult Drowsiness false; mkResult PhoneDetected true; mkResult NotesDetected false].
Proof.
  destruct (tick_emits_full_snapshot (runDetection readyState phoneFrame) phoneFrame)
    as (_ & _ & _ & _ & H).
  - vm_compute. reflexivity.
  - rewrite H. vm_compute. reflexivity.
Defined.

(** ** Start and stop *)

Lemma runTicks_skipped s inps : skipped s = true -> runTicks s inps = s.
Proof.
  intros Hs. induction inps as [|i l IH]; [reflexivity|].
  rewrite runTicks_cons, runDetection_skipped by assumption. exact IH.
Qed.

Lemma runTicks_sameLifecycle inps : forall s, sameLifecycle (runTicks s inps) s.
Proof.
  induction inps as [|i l IH]; intros s; [apply sameLifecycle_refl|].
  rewrite runTicks_cons. eapply sameLifecycle_trans; [apply IH|apply tick_sameLifecycle].
Qed.

(** C9: stopping (a click on the button while monitoring) leaves the six
    counters, the six flags and both tracker counters as they were; what it
    writes is [isMonitoring], [cameraActive], the stream and the source of
    the video element.  The same holds after the ticks that come while
    stopped and after the click that starts monitoring again. *)
Theorem stop_keeps_statistics :
  forall (s : State) (g g' : CameraOutcome) (inps : list TickInput),
    isMonitoring s = true ->
    let s1 := handleStartStop g s in
    let s2 := handleStartStop g' (runTicks s1 inps) in
    (stats s1 = stats s /\ currentDetections s1 = currentDetections s /\
     focusLostFrames s1 = focusLostFrames s /\ drowsyFrames s1 = drowsyFrames s)
    /\ (isMonitoring s1 = false /\ cameraActive s1 = false /\ intervalArmed s1 = false)
    /\ s1 = set_cameraActive false
              (set_videoRef (videoRef s1)
                 (set_streamRef (streamRef s1) (set_isMonitoring false s)))
    /\ runTicks s1 inps = s1
    /\ (stats s2 = stats s /\ currentDetections s2 = currentDetections s /\
        focusLostFrames s2 = focusLostFrames s /\ drowsyFrames s2 = drowsyFrames s).
Proof.
  intros s g g' inps Hm s1 s2.
  assert (Hstop : s1 = stopCamera (set_isMonitoring false s)).
  { unfold s1, handleStartStop. now rewrite Hm. }
  assert (Hoff : cameraActive s1 = false).
  { rewrite Hstop. unfold stopCamera. reflexivity. }
  assert (Hskip : runTicks s1 inps = s1).
  { apply runTicks_skipped. unfold skipped. rewrite Hoff. cbn.
    now rewrite orb_true_r. }
  split; [apply handleStartStop_stats|].
  split.
  { split; [|split; [exact Hoff|]].
    - rewrite Hstop. unfold stopCamera. cbn. now destruct (videoRef s).
    - unfold intervalArmed. rewrite Hoff. now rewrite andb_false_r. }
  split.
  { rewrite Hstop. unfold stopCamera. cbn. destruct (videoRef s); reflexivity. }
  split; [exact Hskip|].
  unfold s2. rewrite Hskip.
  destruct (handleStartStop_stats g' s1) as (H1 & H2 & H3 & H4).
  destruct (handleStartStop_stats g s) as (K1 & K2 & K3 & K4).
  fold s1 in K1, K2, K3, K4.
  repeat split; congruence.
Qed.

Lemma stop_keeps_statistics_witness :
  let s := runTicks readyState [phoneFrame; emptyFrame; phoneFrame] in
  let s2 := handleStartStop (Playing demoStream)
              (runTicks (handleStartStop Denied s) [phoneFrame]) in
  getKey PhoneDetected (stats s2) = 2
  /\ getKey PhoneDetected (currentDetections s2) = true
  /\ focusLostFrames s2 = 3
  /\ isMonitoring s2 = true.
Proof.
  intros s s2.
  destruct (stop_keeps_statistics s Denied (Playing demoStream) [phoneFrame])
    as (_ & _ & _ & _ & H1 & H2 & H3 & _).
  - vm_compute. reflexivity.
  - fold s2 in H1, H2, H3. rewrite H1, H2, H3.
    vm_compute. repeat split.
Defined.

(** ** Reachable states *)

Lemma handleStartStop_models g s :
  modelsLoaded (handleStartStop g s) = modelsLoaded s /\
  blazeFaceModelRef (handleStartStop g s) = blazeFaceModelRef s /\
  cocoSsdModelRef (handleStartStop g s) = cocoSsdModelRef s.
Proof.
  unfold handleStartStop, startCamera, stopCamera.
  destruct (isMonitoring s), (cameraActive s), g as [|m|m]; cbn;
    destruct (videoRef s); cbn; repeat split; reflexivity.
Qed.

Lemma step_modelsConsistent s e : modelsConsistent s -> modelsConsistent (step s e).
Proof.
  unfold modelsConsistent. intros H. destruct e as [| |g| |inp]; cbn [step].
  - exact H.
  - intros _. split; reflexivity.
  - destruct (handleStartStop_models g s) as (-> & -> & ->). exact H.
  - exact H.
  - destruct (tick_sameLifecycle s inp) as (_ & _ & -> & _ & _ & _ & -> & ->). exact H.
Qed.

Lemma run_modelsConsistent evs : forall s, modelsConsistent s -> modelsConsistent (run s evs).
Proof.
  induction evs as [|e l IH]; intros s H; [exact H|].
  cbn [run fold_left]. apply IH. now apply step_modelsConsistent.
Qed.

Lemma reachable_modelsConsistent evs : modelsConsistent (run initialState evs).
Proof. apply run_modelsConsistent. intros H. discriminate. Qed.

Lemma skipped_false s :
  skipped s = false ->
  videoRef s <> None /\ cameraActive s = true /\ modelsLoaded s = true.
Proof.
  unfold skipped. intros H.
  destruct (videoRef s), (cameraActive s), (modelsLoaded s); cbn in H;
    try discriminate; repeat split; discriminate.
Qed.

(** ** Phone and notes *)

(** With the model loaded and a video element, the phone condition of
    [runDetection] only looks at the class names COCO-SSD returned. *)
Lemma phone_some s v preds :
  cocoSsdModelRef s <> None -> v <> None ->
  some (fun obj => String.eqb (obj_class obj) "phone") (detectObjectsTF s v preds) =
  existsb (fun c => String.eqb c "cell phone") (map class preds).
Proof.
  intros Hc Hv. unfold detectObjectsTF, some.
  destruct (cocoSsdModelRef s); [|now elim Hc]. destruct v; [|now elim Hv]. cbn [isNull orb].
  induction preds as [|p l IH]; [reflexivity|].
  cbn [filter map existsb includes].
  rewrite (String.eqb_sym "cell phone" (class p)), (String.eqb_sym "book" (class p)).
  destruct (String.eqb (class p) "cell phone") eqn:E1; cbn.
  - rewrite E1. reflexivity.
  - destruct (String.eqb (class p) "book") eqn:E2; cbn; [rewrite E1; cbn|]; exact IH.
Qed.

Lemma notes_some s v preds :
  cocoSsdModelRef s <> None -> v <> None ->
  some (fun obj => String.eqb (obj_class obj) "book") (detectObjectsTF s v preds) =
  existsb (fun c => String.eqb c "book") (map class preds).
Proof.
  intros Hc Hv. unfold detectObjectsTF, some.
  destruct (cocoSsdModelRef s); [|now elim Hc]. destruct v; [|now elim Hv]. cbn [isNull orb].
  induction preds as [|p l IH]; [reflexivity|].
  cbn [filter map existsb includes].
  rewrite (String.eqb_sym "cell phone" (class p)), (String.eqb_sym "book" (class p)).
  destruct (String.eqb (class p) "cell phone") eqn:E1; cbn.
  - rewrite E1. cbn.
    apply String.eqb_eq in E1. rewrite E1. cbn. exact IH.
  - destruct (String.eqb (class p) "book") eqn:E2; cbn; [rewrite E1; cbn|]; [reflexivity|exact IH].
Qed.

Lemma existsb_class c preds :
  existsb (fun x => String.eqb x c) (map class preds) = true <->
  exists p, In p preds /\ class p = c.
Proof.
  rewrite existsb_exists. split.
  - intros (x & Hin & Heq). apply in_map_iff in Hin. destruct Hin as (p & <- & Hp).
    apply String.eqb_eq in Heq. now exists p.
  - intros (p & Hp & <-). exists (class p). split; [now apply in_map|apply String.eqb_refl].
Qed.

Lemma some_class c objects :
  some (fun obj => String.eqb (obj_class obj) c) objects = true <->
  exists obj, In obj objects /\ obj_class obj = c.
Proof.
  unfold some. rewrite existsb_exists. split.
  - intros (o & Hin & Heq). apply String.eqb_eq in Heq. now exists o.
  - intros (o & Hin & <-). exists o. split; [assumption|apply String.eqb_refl].
Qed.

(** C7: in any reachable state, on a tick that is not skipped, the phone
    flag is up after the tick exactly when some object of the frame has
    class phone, that is when some COCO-SSD prediction has class
    "cell phone"; the notes flag likewise, for class book.  Two frames
    whose predictions carry the same classes in the same order, whatever
    their scores and boxes, leave the same two flags. *)
Theorem object_flags_ignore_confidence :
  forall (evs : list Event) (inp inp' : TickInput),
    let s := run initialState evs in
    let after i := currentDetections (runDetection s i) in
    let objects := detectObjectsTF s (videoRef s) (objectPredictions inp) in
    skipped s = false ->
    (phoneDetected (after inp) = true <->
       exists obj, In obj objects /\ obj_class obj = "phone")
    /\ (notesDetected (after inp) = true <->
          exists obj, In obj objects /\ obj_class obj = "book")
    /\ (phoneDetected (after inp) = true <->
          exists p, In p (objectPredictions inp) /\ class p = "cell phone")
    /\ (notesDetected (after inp) = true <->
          exists p, In p (objectPredictions inp) /\ class p = "book")
    /\ (map class (objectPredictions inp') = map class (objectPredictions inp) ->
        phoneDetected (after inp') = phoneDetected (after inp) /\
        notesDetected (after inp') = notesDetected (after inp)).
Proof.
  intros evs inp inp' s after objects Hs.
  destruct (skipped_false s Hs) as (Hv & _ & Hm).
  destruct (reachable_modelsConsistent evs Hm) as [_ Hc]. fold s in Hc.
  assert (Hc' : cocoSsdModelRef s <> None) by (rewrite Hc; discriminate).
  assert (Hp : forall i, phoneDetected (after i) =
                         some (fun obj => String.eqb (obj_class obj) "phone")
                              (detectObjectsTF s (videoRef s) (objectPredictions i))).
  { intros i. apply (tick_cur s i PhoneDetected Hs). }
  assert (Hn : forall i, notesDetected (after i) =
                         some (fun obj => String.eqb (obj_class obj) "book")
                              (detectObjectsTF s (videoRef s) (objectPredictions i))).
  { intros i. apply (tick_cur s i NotesDetected Hs). }
  split; [rewrite Hp; apply some_class|].
  split; [rewrite Hn; apply some_class|].
  split; [rewrite Hp, phone_some by assumption; apply existsb_class|].
  split; [rewrite Hn, notes_some by assumption; apply existsb_class|].
  intros Hsame.
  rewrite !Hp, !Hn, !phone_some, !notes_some by assumption.
  now rewrite Hsame.
Qed.

Lemma object_flags_ignore_confidence_witness :
  let s := run initialState [EvMount; EvLoadModels; EvStartStop (Playing demoStream)] in
  let faint := mkTickInput [] [mkCocoPrediction "cell phone" (1 / 100)%R (5, 5, 2, 2)%R] 0%R in
  phoneDetected (currentDetections (runDetection s phoneFrame)) = true
  /\ phoneDetected (currentDetections (runDetection s faint)) = true
  /\ notesDetected (currentDetections (runDetection s faint)) = false.
Proof.
  intros s faint.
  destruct (object_flags_ignore_confidence
              [EvMount; EvLoadModels; EvStartStop (Playing demoStream)] phoneFrame faint)
    as (_ & _ & H3 & _ & H5).
  - vm_compute. reflexivity.
  - fold s in H3, H5.
    assert (Hphone : phoneDetected (currentDetections (runDetection s phoneFrame)) = true).
    { apply H3. eexists. split; [left; reflexivity|reflexivity]. }
    destruct (H5 eq_refl) as [Ha Hb].
    split; [exact Hphone|]. split.
    + rewrite Ha. exact Hphone.
    + rewrite Hb. vm_compute. reflexivity.
Defined.

(** ** Drowsiness needs a face *)

Lemma noLandmarks_false face :
  noLandmarks face = false -> exists f lm, face = Some f /\ face_landmarks f = Some lm.
Proof.
  destruct face as [f|]; cbn; [|discriminate].
  destruct (face_landmarks f) as [lm|] eqn:E; cbn; [|discriminate].
  intros _. now exists f, lm.
Qed.

Lemma tick_drowsy_needs_landmarks s inp :
  skipped s = false ->
  drowsiness (currentDetections (runDetection s inp)) = true ->
  faceWithLandmarks s inp.
Proof.
  intros Hs Hd.
  pose proof (tick_cur s inp Drowsiness Hs) as Hc. cbn [getKey] in Hc.
  rewrite Hc in Hd. cbn [classifierOutputs drowsiness] in Hd.
  apply noLandmarks_false.
  destruct (noLandmarks (mainFace s inp)) eqn:E; [|reflexivity].
  rewrite detectDrowsiness_no_landmarks in Hd by assumption. discriminate.
Qed.

Lemma mainFace_no_prediction s inp : facePredictions inp = [] -> mainFace s inp = None.
Proof.
  intros H. unfold mainFace, detectFacesTF. rewrite H.
  now destruct (isNull (blazeFaceModelRef s) || isNull (videoRef s)).
Qed.

Lemma lastCompleted_invariant evs :
  forall s acc,
    (drowsiness (currentDetections s) = true ->
     exists s0 i, acc = Some (s0, i) /\ faceWithLandmarks s0 i) ->
    drowsiness (currentDetections (run s evs)) = true ->
    exists s0 i, lastCompleted s evs acc = Some (s0, i) /\ faceWithLandmarks s0 i.
Proof.
  induction evs as [|e l IH]; intros s acc Hacc; [exact Hacc|].
  cbn [run fold_left lastCompleted]. apply IH.
  destruct e as [| |g| |inp]; cbn [step].
  - exact Hacc.
  - exact Hacc.
  - destruct (handleStartStop_stats g s) as (_ & -> & _). exact Hacc.
  - cbn. discriminate.
  - destruct (skipped s) eqn:Hs.
    + now rewrite runDetection_skipped by assumption.
    + intros Hd. exists s, inp. split; [reflexivity|].
      now apply tick_drowsy_needs_landmarks.
Qed.

(** C10: after a tick that is not skipped and for which the face model
    returned no face, the drowsiness flag is down and the drowsiness
    counter is 0.  A tick that leaves the drowsiness flag up had a primary
    face with landmarks; and whenever the flag is up in a state reached
    from the first render, the last tick that was not skipped had one. *)
Theorem drowsiness_needs_a_face :
  forall (s : State) (inp : TickInput) (evs : list Event),
    (skipped s = false -> facePredictions inp = [] ->
     drowsiness (currentDetections (runDetection s inp)) = false /\
     drowsyFrames (runDetection s inp) = 0)
    /\ (skipped s = false ->
        drowsiness (currentDetections (runDetection s inp)) = true ->
        faceWithLandmarks s inp)
    /\ (drowsiness (currentDetections (run initialState evs)) = true ->
        exists s0 i, lastCompleted initialState evs None = Some (s0, i) /\
                     faceWithLandmarks s0 i).
Proof.
  intros s inp evs. split; [|split].
  - intros Hs Hf.
    pose proof (mainFace_no_prediction s inp Hf) as Hmf.
    pose proof (tick_cur s inp Drowsiness Hs) as Hc. cbn [getKey] in Hc.
    rewrite Hc, tick_drowsyFrames by assumption.
    cbn [classifierOutputs drowsiness]. rewrite Hmf.
    split; reflexivity.
  - apply tick_drowsy_needs_landmarks.
  - apply lastCompleted_invariant. cbn. discriminate.
Qed.

Lemma detectDrowsiness_closed s f rnd :
  face_landmarks f <> None -> (rnd < 8 / 100)%R ->
  detectDrowsiness s (Some f) rnd =
  (set_drowsyFrames (drowsyFrames s + 1) s, drowsyFrames s + 1 >=? DROWSINESS_FRAMES).
Proof.
  intros Hl Hr. unfold detectDrowsiness. cbn [noLandmarks].
  destruct (face_landmarks f); [|now elim Hl]. cbn [isNull].
  destruct (Rlt_dec rnd (8 / 100)); [reflexivity|contradiction].
Qed.

Lemma closedEyes_mainFace s :
  skipped s = false -> blazeFaceModelRef s = Some tt ->
  exists f, mainFace s closedEyesFrame = Some f /\ face_landmarks f = someLandmarks.
Proof.
  intros Hs Hb. destruct (skipped_false s Hs) as (Hv & _).
  unfold mainFace, detectFacesTF. rewrite Hb.
  destruct (videoRef s); [|now elim Hv]. cbn. eexists. split; reflexivity.
Qed.

Lemma closedEyes_ticks n :
  forall s, skipped s = false -> blazeFaceModelRef s = Some tt ->
    drowsyFrames (runTicks s (repeat closedEyesFrame n)) = drowsyFrames s + Z.of_nat n.
Proof.
  induction n as [|n IH]; intros s Hs Hb.
  - cbn. lia.
  - cbn [repeat]. rewrite runTicks_cons.
    pose proof (tick_sameLifecycle s closedEyesFrame) as Hl.
    rewrite IH.
    + rewrite tick_drowsyFrames by assumption.
      destruct (closedEyes_mainFace s Hs Hb) as (f & -> & Hlm).
      rewrite detectDrowsiness_closed; [cbn; lia| rewrite Hlm; discriminate | cbn; lra].
    + rewrite (sameLifecycle_skipped _ _ Hl). exact Hs.
    + destruct Hl as (_ & _ & _ & _ & _ & _ & -> & _). exact Hb.
Qed.

Lemma runTicks_snoc s inps inp :
  runTicks s (inps ++ [inp]) = runDetection (runTicks s inps) inp.
Proof. unfold runTicks. now rewrite fold_left_app. Qed.

Lemma closedEyes_last s :
  skipped s = false -> blazeFaceModelRef s = Some tt -> drowsyFrames s = 14 ->
  drowsiness (currentDetections (runDetection s closedEyesFrame)) = true.
Proof.
  intros Hs Hb Hd.
  pose proof (tick_cur s closedEyesFrame Drowsiness Hs) as Hc. cbn [getKey] in Hc.
  rewrite Hc. cbn [classifierOutputs drowsiness].
  destruct (closedEyes_mainFace s Hs Hb) as (f & -> & Hlm).
  rewrite detectDrowsiness_closed; [|rewrite Hlm; discriminate|cbn; lra].
  cbn [snd]. rewrite Hd. reflexivity.
Qed.

Lemma closedEyes_ready n :
  skipped (runTicks readyState (repeat closedEyesFrame n)) = false /\
  blazeFaceModelRef (runTicks readyState (repeat closedEyesFrame n)) = Some tt /\
  drowsyFrames (runTicks readyState (repeat closedEyesFrame n)) = Z.of_nat n.
Proof.
  pose proof (runTicks_sameLifecycle (repeat closedEyesFrame n) readyState) as Hl.
  split; [|split].
  - now rewrite (sameLifecycle_skipped _ _ Hl).
  - destruct Hl as (_ & _ & _ & _ & _ & _ & -> & _). reflexivity.
  - rewrite closedEyes_ticks; reflexivity.
Qed.

Lemma closedEyes_raise_flag :
  drowsiness (currentDetections
                (runTicks readyState (repeat closedEyesFrame 14 ++ [closedEyesFrame]))) = true.
Proof.
  rewrite runTicks_snoc.
  destruct (closedEyes_ready 14) as (Hs & Hb & Hd).
  now apply closedEyes_last.
Qed.

Lemma run_ticks s inps : run s (map EvTick inps) = runTicks s inps.
Proof.
  revert s. induction inps as [|i l IH]; intros s; [reflexivity|].
  cbn [map run fold_left step]. apply IH.
Qed.

Lemma boot_readyState :
  run initialState [EvMount; EvLoadModels; EvStartStop (Playing demoStream)] = readyState.
Proof. vm_compute. reflexivity. Qed.

Lemma drowsiness_needs_a_face_witness :
  let evs := [EvMount; EvLoadModels; EvStartStop (Playing demoStream)]
             ++ map EvTick (repeat closedEyesFrame 14 ++ [closedEyesFrame]) in
  let s14 := runTicks readyState (repeat closedEyesFrame 14) in
  (drowsiness (currentDetections (runDetection readyState emptyFrame)) = false /\
   drowsyFrames (runDetection readyState emptyFrame) = 0)
  /\ faceWithLandmarks s14 closedEyesFrame
  /\ (exists s0 i, lastCompleted initialState evs None = Some (s0, i) /\
                   faceWithLandmarks s0 i).
Proof.
  intros evs s14. split; [|split].
  - apply (drowsiness_needs_a_face readyState emptyFrame []); reflexivity.
  - apply (drowsiness_needs_a_face s14 closedEyesFrame []).
    + apply (closedEyes_ready 14).
    + unfold s14. rewrite <- runTicks_snoc. exact closedEyes_raise_flag.
  - apply (drowsiness_needs_a_face readyState emptyFrame evs).
    unfold evs. rewrite run_app, run_ticks, boot_readyState.
    exact closedEyes_raise_flag.
Defined.

(** * Further properties of the component *)

(** ** The trackers, one call *)

Lemma detectFocusLoss_range s face :
  0 <= focusLostFrames s ->
  0 <= focusLostFrames (fst (detectFocusLoss s face)) <= focusLostFrames s + 1.
Proof.
  intros Hc. unfold detectFocusLoss. destruct face as [f|]; [|cbn; lia].
  destruct (float_gt _ _); cbn; lia.
Qed.

Lemma detectDrowsiness_snd s face rnd :
  snd (detectDrowsiness s face rnd) =
  (drowsyFrames (fst (detectDrowsiness s face rnd)) >=? DROWSINESS_FRAMES).
Proof.
  unfold detectDrowsiness. destruct (noLandmarks face); [reflexivity|].
  destruct (Rlt_dec _ _); reflexivity.
Qed.

Lemma detectDrowsiness_range s face rnd :
  0 <= drowsyFrames s ->
  0 <= drowsyFrames (fst (detectDrowsiness s face rnd)) <= drowsyFrames s + 1.
Proof.
  intros Hc. unfold detectDrowsiness. destruct (noLandmarks face); cbn; [lia|].
  destruct (Rlt_dec _ _); cbn; lia.
Qed.

Lemma detectDrowsiness_open s face rnd :
  ~ (rnd < 8 / 100)%R ->
  detectDrowsiness s face rnd = (set_drowsyFrames 0 s, false).
Proof.
  intros Hr. unfold detectDrowsiness. destruct (noLandmarks face); [reflexivity|].
  destruct (Rlt_dec rnd (8 / 100)); [contradiction|reflexivity].
Qed.

(** ** The six outputs of one tick *)

Lemma outputs_absent_not_multiple s inp :
  faceAbsent (classifierOutputs s inp) && multipleFaces (classifierOutputs s inp) = false.
Proof.
  cbn [classifierOutputs faceAbsent multipleFaces]. unfold mainFace.
  destruct (detectFacesTF s (videoRef s) (facePredictions inp)) as [|f l]; reflexivity.
Qed.

Lemma outputs_absent_not_drowsy s inp :
  faceAbsent (classifierOutputs s inp) && drowsiness (classifierOutputs s inp) = false.
Proof.
  cbn [classifierOutputs faceAbsent drowsiness].
  destruct (mainFace s inp) as [f|]; [reflexivity|].
  now rewrite detectDrowsiness_no_landmarks.
Qed.

Lemma handleStartStop_detectionResults outcome s :
  detectionResults (handleStartStop outcome s) = detectionResults s.
Proof.
  unfold handleStartStop, startCamera, stopCamera.
  destruct (isMonitoring s), (cameraActive s), outcome as [|m|m]; cbn;
    destruct (videoRef s); cbn; reflexivity.
Qed.

(** ** States reached from the first render *)

Lemma initialState_sound : sound initialState.
Proof.
  unfold sound, initialState. cbn.
  repeat split; try (intros k; destruct k; cbn; lia); try lia. now left.
Qed.

Lemma resetStats_sound s : sound s -> sound (resetStats s).
Proof.
  intros (_ & _ & _ & _ & _ & Hlife & Hres). unfold sound, resetStats. cbn.
  split; [intros k; destruct k; cbn; lia|].
  split; [intros k; destruct k; cbn; lia|].
  split; [lia|]. split; [split; reflexivity|]. split; [split; reflexivity|].
  split; assumption.
Qed.

Lemma handleStartStop_sound outcome s : sound s -> sound (handleStartStop outcome s).
Proof.
  intros (Ha & Hb & Hc & Hd & He & (Hcam & Hstr) & Hres). unfold sound.
  destruct (handleStartStop_stats outcome s) as (-> & -> & -> & ->).
  rewrite handleStartStop_detectionResults.
  repeat (split; [assumption|]). split; [|assumption].
  unfold handleStartStop, startCamera, stopCamera.
  rewrite Hcam in *.
  destruct (isMonitoring s) eqn:Hm; cbn.
  - destruct (videoRef s); cbn; split; reflexivity.
  - destruct outcome as [|m|m]; cbn.
    + rewrite Hcam, Hm. split; reflexivity.
    + destruct (videoRef s); cbn; [rewrite Hcam, Hm|]; split; reflexivity.
    + destruct (videoRef s); cbn; split; reflexivity.
Qed.

Lemma runDetection_sound s inp : sound s -> sound (runDetection s inp).
Proof.
  intros Hs. destruct (skipped s) eqn:Hsk.
  { now rewrite runDetection_skipped. }
  destruct Hs as (Ha & Hb & (Hf & Hdr) & Hd & He & (Hcam & Hstr) & Hres).
  unfold sound.
  split.
  { intros k. rewrite tick_stats by assumption. specialize (Ha k).
    destruct (getKey k (classifierOutputs s inp) && negb (getKey k (currentDetections s))); lia. }
  split.
  { intros k. rewrite tick_stats, tick_cur by assumption.
    specialize (Ha k). specialize (Hb k).
    destruct (getKey k (classifierOutputs s inp)), (getKey k (currentDetections s)); cbn; lia. }
  split.
  { rewrite tick_focusLostFrames, tick_drowsyFrames by assumption.
    split; [apply detectFocusLoss_range|apply detectDrowsiness_range]; assumption. }
  split.
  { pose proof (tick_cur s inp FocusLost Hsk) as H1.
    pose proof (tick_cur s inp Drowsiness Hsk) as H2. cbn [getKey] in H1, H2.
    rewrite H1, H2, tick_focusLostFrames, tick_drowsyFrames by assumption.
    cbn [classifierOutputs focusLost drowsiness].
    split; [apply detectFocusLoss_snd|apply detectDrowsiness_snd]. }
  split.
  { pose proof (tick_cur s inp FaceAbsent Hsk) as H1.
    pose proof (tick_cur s inp MultipleFaces Hsk) as H2.
    pose proof (tick_cur s inp Drowsiness Hsk) as H3. cbn [getKey] in H1, H2, H3.
    rewrite H1, H2, H3.
    split; [apply outputs_absent_not_multiple|apply outputs_absent_not_drowsy]. }
  split.
  { destruct (tick_sameLifecycle s inp) as (-> & -> & _ & _ & _ & -> & _).
    split; assumption. }
  right. rewrite tick_results by assumption. reflexivity.
Qed.

Lemma step_sound s e : sound s -> sound (step s e).
Proof.
  intros Hs. destruct e as [| |g| |inp]; cbn [step].
  - exact Hs.
  - exact Hs.
  - now apply handleStartStop_sound.
  - now apply resetStats_sound.
  - now apply runDetection_sound.
Qed.

Lemma run_sound evs : forall s, sound s -> sound (run s evs).
Proof.
  induction evs as [|e l IH]; intros s Hs; [exact Hs|].
  cbn [run fold_left]. apply IH. now apply step_sound.
Qed.

Lemma reachable_sound evs : sound (run initialState evs).
Proof. apply run_sound, initialState_sound. Qed.

Lemma total_nonneg s : (forall k, 0 <= getKey k (stats s)) -> 0 <= getTotalViolations s.
Proof.
  intros H. rewrite getTotalViolations_sum.
  pose proof (H FocusLost); pose proof (H FaceAbsent); pose proof (H MultipleFaces).
  pose proof (H PhoneDetected); pose proof (H NotesDetected); pose proof (H Drowsiness).
  cbn [getKey] in *. lia.
Qed.

(** X1: in every state reached from the first render, whatever the clicks
    and frames, the six counters, their total and both tracker counters
    are non-negative. *)
Theorem reachable_counters_nonnegative :
  forall (evs : list Event) (k : DetectionType),
    let s := run initialState evs in
    0 <= getKey k (stats s)
    /\ 0 <= getTotalViolations s
    /\ 0 <= focusLostFrames s
    /\ 0 <= drowsyFrames s.
Proof.
  intros evs k s. destruct (reachable_sound evs) as (Ha & _ & (Hf & Hd) & _). fold s in Ha, Hf, Hd.
  split; [apply Ha|]. split; [now apply total_nonneg|]. split; assumption.
Qed.

(** X2: in every reachable state the focus-lost flag is up exactly when
    the focus counter has reached [FOCUS_LOST_FRAMES], and the drowsiness
    flag exactly when the drowsiness counter has reached
    [DROWSINESS_FRAMES]: flags and counters never drift apart, a reset
    included. *)
Theorem reachable_flags_follow_trackers :
  forall (evs : list Event),
    let s := run initialState evs in
    focusLost (currentDetections s) = (focusLostFrames s >=? FOCUS_LOST_FRAMES)
    /\ drowsiness (currentDetections s) = (drowsyFrames s >=? DROWSINESS_FRAMES).
Proof.
  intros evs s. destruct (reachable_sound evs) as (_ & _ & _ & Hd & _). exact Hd.
Qed.

Lemma activeAlerts_length s :
  Z.of_nat (List.length (activeAlerts s)) =
  (if focusLost (currentDetections s) then 1 else 0) +
  (if faceAbsent (currentDetections s) then 1 else 0) +
  (if multipleFaces (currentDetections s) then 1 else 0) +
  (if phoneDetected (currentDetections s) then 1 else 0) +
  (if notesDetected (currentDetections s) then 1 else 0) +
  (if drowsiness (currentDetections s) then 1 else 0).
Proof.
  unfold activeAlerts, allTypes. cbn [filter getKey].
  destruct (focusLost _), (faceAbsent _), (multipleFaces _), (phoneDetected _),
    (notesDetected _), (drowsiness _); reflexivity.
Qed.

(** X3: in every reachable state a flag that is up has been counted: its
    counter is at least 1.  So the alerts panel never lists more entries
    than the total shown beside it, and with a total of 0 it is empty. *)
Theorem active_alerts_are_counted :
  forall (evs : list Event) (k : DetectionType),
    let s := run initialState evs in
    (if getKey k (currentDetections s) then 1 else 0) <= getKey k (stats s)
    /\ Z.of_nat (List.length (activeAlerts s)) <= getTotalViolations s.
Proof.
  intros evs k s. destruct (reachable_sound evs) as (_ & Hb & _). fold s in Hb.
  split; [apply Hb|].
  rewrite activeAlerts_length, getTotalViolations_sum.
  pose proof (Hb FocusLost); pose proof (Hb FaceAbsent); pose proof (Hb MultipleFaces).
  pose proof (Hb PhoneDetected); pose proof (Hb NotesDetected); pose proof (Hb Drowsiness).
  cbn [getKey] in *. lia.
Qed.

(** X4: in no reachable state are the face-absent and multiple-faces flags
    up together, nor the face-absent and drowsiness flags. *)
Theorem reachable_exclusive_flags :
  forall (evs : list Event),
    let s := run initialState evs in
    faceAbsent (currentDetections s) && multipleFaces (currentDetections s) = false
    /\ faceAbsent (currentDetections s) && drowsiness (currentDetections s) = false.
Proof.
  intros evs s. destruct (reachable_sound evs) as (_ & _ & _ & _ & He & _). exact He.
Qed.

(** X5: at the end of every handler the camera is active exactly when
    monitoring is on, and while monitoring a stream is held.  So the
    interval is armed exactly when monitoring is on and the models are
    loaded, and a tick is skipped only when the interval is not armed or
    there is no video element. *)
Theorem camera_follows_monitoring :
  forall (evs : list Event),
    let s := run initialState evs in
    cameraActive s = isMonitoring s
    /\ isMonitoring s && isNull (streamRef s) = false
    /\ intervalArmed s = isMonitoring s && modelsLoaded s
    /\ skipped s = isNull (videoRef s) || negb (intervalArmed s).
Proof.
  intros evs s.
  destruct (reachable_sound evs) as (_ & _ & _ & _ & _ & (Hcam & Hstr) & _).
  fold s in Hcam, Hstr.
  split; [exact Hcam|]. split; [exact Hstr|].
  unfold intervalArmed, skipped. rewrite Hcam.
  destruct (isMonitoring s), (modelsLoaded s), (videoRef s); split; reflexivity.
Qed.

(** X6: in every reachable state [detectionResults] is empty or holds the
    six entries of the last tick that ran, so [slice(0, 6)] drops nothing:
    the overlay shows all of it. *)
Theorem overlay_shows_whole_snapshot :
  forall (evs : list Event),
    let s := run initialState evs in
    overlayEntries s = detectionResults s
    /\ (detectionResults s = [] \/ map type (detectionResults s) = tickOrder).
Proof.
  intros evs s. destruct (reachable_sound evs) as (_ & _ & _ & _ & _ & _ & Hres).
  fold s in Hres. split; [|exact Hres].
  unfold overlayEntries. apply firstn_all2.
  destruct Hres as [-> | H]; [cbn; lia|].
  rewrite <- (length_map type), H. cbn. lia.
Qed.

(** ** Hysteresis over a run of ticks *)

Lemma tick_trackers_range s inp :
  0 <= focusLostFrames s -> 0 <= drowsyFrames s ->
  0 <= focusLostFrames (runDetection s inp) <= focusLostFrames s + 1 /\
  0 <= drowsyFrames (runDetection s inp) <= drowsyFrames s + 1.
Proof.
  intros Hf Hd. destruct (skipped s) eqn:Hs.
  - rewrite runDetection_skipped by assumption. lia.
  - rewrite tick_focusLostFrames, tick_drowsyFrames by assumption.
    split; [now apply detectFocusLoss_range|now apply detectDrowsiness_range].
Qed.

Lemma runTicks_trackers_range inps :
  forall s, 0 <= focusLostFrames s -> 0 <= drowsyFrames s ->
    0 <= focusLostFrames (runTicks s inps) <= focusLostFrames s + Z.of_nat (List.length inps) /\
    0 <= drowsyFrames (runTicks s inps) <= drowsyFrames s + Z.of_nat (List.length inps).
Proof.
  induction inps as [|i l IH]; intros s Hf Hd.
  - cbn. lia.
  - rewrite runTicks_cons.
    destruct (tick_trackers_range s i Hf Hd) as [H1 H2].
    destruct (IH (runDetection s i) ltac:(lia) ltac:(lia)) as [K1 K2].
    cbn [List.length]. lia.
Qed.

Lemma tick_flags_follow s inp :
  focusLost (currentDetections s) = (focusLostFrames s >=? FOCUS_LOST_FRAMES) ->
  drowsiness (currentDetections s) = (drowsyFrames s >=? DROWSINESS_FRAMES) ->
  focusLost (currentDetections (runDetection s inp)) =
    (focusLostFrames (runDetection s inp) >=? FOCUS_LOST_FRAMES) /\
  drowsiness (currentDetections (runDetection s inp)) =
    (drowsyFrames (runDetection s inp) >=? DROWSINESS_FRAMES).
Proof.
  intros Hf Hd. destruct (skipped s) eqn:Hs.
  - rewrite runDetection_skipped by assumption. now split.
  - pose proof (tick_cur s inp FocusLost Hs) as H1.
    pose proof (tick_cur s inp Drowsiness Hs) as H2. cbn [getKey] in H1, H2.
    rewrite H1, H2, tick_focusLostFrames, tick_drowsyFrames by assumption.
    cbn [classifierOutputs focusLost drowsiness].
    split; [apply detectFocusLoss_snd|apply detectDrowsiness_snd].
Qed.

Lemma runTicks_flags_follow inps :
  forall s,
    focusLost (currentDetections s) = (focusLostFrames s >=? FOCUS_LOST_FRAMES) ->
    drowsiness (currentDetections s) = (drowsyFrames s >=? DROWSINESS_FRAMES) ->
    focusLost (currentDetections (runTicks s inps)) =
      (focusLostFrames (runTicks s inps) >=? FOCUS_LOST_FRAMES) /\
    drowsiness (currentDetections (runTicks s inps)) =
      (drowsyFrames (runTicks s inps) >=? DROWSINESS_FRAMES).
Proof.
  induction inps as [|i l IH]; intros s Hf Hd; [now split|].
  rewrite runTicks_cons. destruct (tick_flags_follow s i Hf Hd) as [H1 H2].
  now apply IH.
Qed.

(** X7: over any run of ticks each tracker counter stays non-negative and
    grows by at most one per tick: after N ticks it is at most its value
    before plus N. *)
Theorem trackers_move_one_step_per_tick :
  forall (s : State) (inps : list TickInput),
    0 <= focusLostFrames s -> 0 <= drowsyFrames s ->
    0 <= focusLostFrames (runTicks s inps) <= focusLostFrames s + Z.of_nat (List.length inps)
    /\ 0 <= drowsyFrames (runTicks s inps) <= drowsyFrames s + Z.of_nat (List.length inps).
Proof. intros s inps. apply runTicks_trackers_range. Qed.

Lemma trackers_move_one_step_per_tick_witness :
  0 <= focusLostFrames (runTicks readyState [emptyFrame; phoneFrame; emptyFrame]) <= 3
  /\ 0 <= drowsyFrames (runTicks readyState [emptyFrame; phoneFrame; emptyFrame]) <= 3.
Proof.
  apply (trackers_move_one_step_per_tick readyState [emptyFrame; phoneFrame; emptyFrame]);
    vm_compute; discriminate.
Defined.

(** X8: after a reset, focus loss cannot be reported before the 35th tick
    and drowsiness cannot be reported before the 15th, whatever the frames
    show. *)
Theorem no_alarm_before_threshold :
  forall (s : State) (inps : list TickInput),
    ((List.length inps < 35)%nat ->
     focusLost (currentDetections (runTicks (resetStats s) inps)) = false)
    /\ ((List.length inps < 15)%nat ->
        drowsiness (currentDetections (runTicks (resetStats s) inps)) = false).
Proof.
  intros s inps.
  destruct (runTicks_flags_follow inps (resetStats s) eq_refl eq_refl) as [Hf Hd].
  destruct (runTicks_trackers_range inps (resetStats s)) as [Kf Kd]; [cbn; lia|cbn; lia|].
  cbn [resetStats focusLostFrames drowsyFrames set_focusLostFrames set_drowsyFrames] in Kf, Kd.
  split; intros Hn.
  - rewrite Hf. unfold FOCUS_LOST_FRAMES. rewrite Z.geb_leb. apply Z.leb_gt. lia.
  - rewrite Hd. unfold DROWSINESS_FRAMES. rewrite Z.geb_leb. apply Z.leb_gt. lia.
Qed.

Lemma no_alarm_before_threshold_witness :
  focusLost (currentDetections
               (runTicks (resetStats readyState) (repeat emptyFrame 34))) = false
  /\ drowsiness (currentDetections
                   (runTicks (resetStats readyState) (repeat closedEyesFrame 14))) = false.
Proof.
  destruct (no_alarm_before_threshold readyState (repeat emptyFrame 34)) as [Hf _].
  destruct (no_alarm_before_threshold readyState (repeat closedEyesFrame 14)) as [_ Hd].
  split.
  - apply Hf. rewrite repeat_length. lia.
  - apply Hd. rewrite repeat_length. lia.
Defined.

(** ** Frames without a face *)

Lemma faceless_tick s inp :
  skipped s = false -> noFace inp ->
  skipped (runDetection s inp) = false
  /\ focusLostFrames (runDetection s inp) = focusLostFrames s + 1
  /\ drowsyFrames (runDetection s inp) = 0
  /\ faceAbsent (currentDetections (runDetection s inp)) = true
  /\ multipleFaces (currentDetections (runDetection s inp)) = false
  /\ drowsiness (currentDetections (runDetection s inp)) = false
  /\ focusLost (currentDetections (runDetection s inp)) =
       (focusLostFrames s + 1 >=? FOCUS_LOST_FRAMES)
  /\ getKey FaceAbsent (stats (runDetection s inp)) =
       getKey FaceAbsent (stats s) + (if faceAbsent (currentDetections s) then 0 else 1).
Proof.
  intros Hs Hn.
  pose proof (mainFace_no_prediction s inp Hn) as Hmf.
  assert (Hfaces : detectFacesTF s (videoRef s) (facePredictions inp) = []).
  { unfold detectFacesTF. rewrite Hn.
    now destruct (isNull (blazeFaceModelRef s) || isNull (videoRef s)). }
  pose proof (tick_cur s inp FaceAbsent Hs) as H1.
  pose proof (tick_cur s inp MultipleFaces Hs) as H2.
  pose proof (tick_cur s inp Drowsiness Hs) as H3.
  pose proof (tick_cur s inp FocusLost Hs) as H4.
  pose proof (tick_stats s inp FaceAbsent Hs) as H5.
  cbn [getKey classifierOutputs faceAbsent multipleFaces drowsiness focusLost] in H1, H2, H3, H4, H5.
  rewrite Hmf in H1, H3, H4, H5. rewrite Hfaces in H2.
  split; [rewrite (sameLifecycle_skipped _ _ (tick_sameLifecycle s inp)); exact Hs|].
  split; [rewrite tick_focusLostFrames, Hmf by assumption; reflexivity|].
  split; [rewrite tick_drowsyFrames, Hmf by assumption; reflexivity|].
  split; [exact H1|]. split; [exact H2|]. split; [exact H3|]. split; [exact H4|].
  cbn [getKey]. rewrite H5. cbn [isNull andb]. now destruct (faceAbsent (currentDetections s)).
Qed.

(** X9: a run of one or more ticks that all find no face, from a state
    in which ticks run.  The focus counter goes up by one per tick, so
    focus loss is reported exactly once the counter has reached 35; the
    face-absent flag is up and the absence is counted once, however long
    it lasts (not at all when the flag was already up); the drowsiness
    counter is 0 and the multiple-faces and drowsiness flags are down. *)
Theorem faceless_run :
  forall (inps : list TickInput) (s : State),
    skipped s = false -> Forall noFace inps -> inps <> [] ->
    let s' := runTicks s inps in
    focusLostFrames s' = focusLostFrames s + Z.of_nat (List.length inps)
    /\ focusLost (currentDetections s') =
         (focusLostFrames s + Z.of_nat (List.length inps) >=? FOCUS_LOST_FRAMES)
    /\ faceAbsent (currentDetections s') = true
    /\ getKey FaceAbsent (stats s') =
         getKey FaceAbsent (stats s) + (if faceAbsent (currentDetections s) then 0 else 1)
    /\ drowsyFrames s' = 0
    /\ multipleFaces (currentDetections s') = false
    /\ drowsiness (currentDetections s') = false.
Proof.
  induction inps as [|i l IH]; intros s Hs Hall Hne; [now elim Hne|].
  inversion Hall as [|? ? Hi Hl]; subst.
  destruct (faceless_tick s i Hs Hi) as (K0 & K1 & K2 & K3 & K4 & K5 & K6 & K7).
  cbv zeta. rewrite runTicks_cons.
  destruct l as [|j l'].
  - cbn [runTicks fold_left List.length]. rewrite K1, K6, K3, K7, K2, K4, K5.
    replace (focusLostFrames s + Z.of_nat 1) with (focusLostFrames s + 1) by lia.
    repeat split.
  - destruct (IH (runDetection s i) K0 Hl ltac:(discriminate))
      as (J1 & J2 & J3 & J4 & J5 & J6 & J7).
    rewrite J1, J2, J3, J4, J5, J6, J7, K1, K3, K7.
    replace (focusLostFrames s + 1 + Z.of_nat (List.length (j :: l')))
      with (focusLostFrames s + Z.of_nat (List.length (i :: j :: l')))
      by (cbn [List.length]; lia).
    repeat split. lia.
Qed.

Lemma faceless_run_witness :
  let s := runTicks readyState (repeat emptyFrame 40) in
  focusLostFrames s = 40
  /\ focusLost (currentDetections s) = true
  /\ getKey FaceAbsent (stats s) = 1.
Proof.
  intros s.
  destruct (faceless_run (repeat emptyFrame 40) readyState) as (H1 & H2 & _ & H4 & _).
  - reflexivity.
  - apply Forall_forall. intros x Hx. apply repeat_spec in Hx. subst x. reflexivity.
  - discriminate.
  - fold s in H1, H2, H4. rewrite H1, H2, H4, repeat_length. vm_compute. repeat split.
Defined.

(** ** Open eyes *)

(** X10: on a tick that runs, the drowsiness counter either goes up by one
    or falls to 0, and it goes up only when the primary face has
    landmarks and the draw says closed (below 0.08).  A frame drawn open
    puts the counter at 0 and the flag down: the fifteen frames that
    raise drowsiness have to be consecutive. *)
Theorem open_eyes_clear_drowsiness :
  forall (s : State) (inp : TickInput),
    skipped s = false ->
    (drowsyFrames (runDetection s inp) = 0 \/
     (drowsyFrames (runDetection s inp) = drowsyFrames s + 1 /\
      (random inp < 8 / 100)%R /\ faceWithLandmarks s inp))
    /\ (~ (random inp < 8 / 100)%R ->
        drowsyFrames (runDetection s inp) = 0 /\
        drowsiness (currentDetections (runDetection s inp)) = false).
Proof.
  intros s inp Hs.
  pose proof (tick_cur s inp Drowsiness Hs) as Hc.
  cbn [getKey classifierOutputs drowsiness] in Hc.
  rewrite Hc, tick_drowsyFrames by assumption.
  split.
  - unfold detectDrowsiness.
    destruct (noLandmarks (mainFace s inp)) eqn:E; [left; reflexivity|].
    destruct (Rlt_dec (random inp) (8 / 100)) as [Hr|Hr]; [right|left; reflexivity].
    split; [reflexivity|]. split; [exact Hr|]. now apply noLandmarks_false.
  - intros Hr. rewrite detectDrowsiness_open by assumption. split; reflexivity.
Qed.

Lemma open_eyes_clear_drowsiness_witness :
  let s14 := runTicks readyState (repeat closedEyesFrame 14) in
  drowsyFrames s14 = 14
  /\ drowsyFrames (runDetection s14 openEyesFrame) = 0
  /\ drowsiness (currentDetections (runDetection s14 openEyesFrame)) = false.
Proof.
  intros s14. destruct (closedEyes_ready 14) as (Hs & _ & Hd). fold s14 in Hs, Hd.
  split; [exact Hd|].
  apply (open_eyes_clear_drowsiness s14 openEyesFrame Hs).
  cbn. lra.
Defined.

(** ** What the two detectors hand to the loop *)



Lemma includes_relevant pred :
  includes ["cell phone"; "book"] (class pred) = relevant pred.
Proof.
  unfold includes, relevant. cbn [existsb].
  rewrite (String.eqb_sym "cell phone"), (String.eqb_sym "book"). now rewrite orb_false_r.
Qed.

Lemma filter_includes_relevant preds :
  filter (fun pred => includes ["cell phone"; "book"] (class pred)) preds =
  filter relevant preds.
Proof. apply filter_ext. intros p. apply includes_relevant. Qed.

(** X12: [detectObjectsTF] returns nothing while the object model is not
    loaded or there is no video element.  Otherwise the objects it
    returns are the predictions of class "cell phone" or "book", in
    their order and with their scores and boxes as they came, whatever
    the scores, and no others; an object has class "phone" when its
    prediction has class "cell phone" and class "book" when its
    prediction has class "book". *)
Theorem detectObjectsTF_objects :
  forall (s : State) (v : option HTMLVideoElement) (preds : list CocoPrediction),
    (cocoSsdModelRef s = None \/ v = None -> detectObjectsTF s v preds = [])
    /\ (cocoSsdModelRef s <> None -> v <> None ->
        let objects := detectObjectsTF s v preds in
        Forall2 (fun p o =>
                   confidence o = score p /\ obj_bbox o = bbox p /\
                   (obj_class o = "phone" /\ class p = "cell phone" \/
                    obj_class o = "book" /\ class p = "book"))
                (filter relevant preds) objects
        /\ (List.length objects <= List.length preds)%nat).
Proof.
  intros s v preds. unfold detectObjectsTF. split.
  - intros [-> | ->]; cbn; [reflexivity|]. now destruct (cocoSsdModelRef s).
  - intros Hc Hv.
    destruct (cocoSsdModelRef s); [|now elim Hc]. destruct v; [|now elim Hv].
    cbn [isNull orb]. rewrite filter_includes_relevant.
    assert (Hall : Forall2 (fun p o =>
                   confidence o = score p /\ obj_bbox o = bbox p /\
                   (obj_class o = "phone" /\ class p = "cell phone" \/
                    obj_class o = "book" /\ class p = "book"))
                (filter relevant preds)
                (map (fun pred =>
                        mkDetectedObject
                          (if String.eqb (class pred) "cell phone" then "phone" else "book")
                          (score pred) (bbox pred))
                     (filter relevant preds))).
    { assert (Hrel : Forall (fun p => relevant p = true) (filter relevant preds)).
      { apply Forall_forall. intros p Hp. now apply filter_In in Hp. }
      induction (filter relevant preds) as [|p l IH]; cbn [map]; constructor.
      - inversion Hrel as [|? ? Hp _]; subst. cbn. split; [reflexivity|]. split; [reflexivity|].
        unfold relevant in Hp.
        destruct (String.eqb (class p) "cell phone") eqn:E1.
        + left. split; [reflexivity|]. now apply String.eqb_eq.
        + right. split; [reflexivity|]. cbn in Hp. now apply String.eqb_eq.
      - apply IH. now inversion Hrel. }
    cbv zeta. split; [exact Hall|].
    rewrite length_map. apply filter_length_le.
Qed.

Lemma detectObjectsTF_objects_witness :
  let preds := [mkCocoPrediction "person" (99 / 100)%R (0, 0, 9, 9)%R;
                mkCocoPrediction "cell phone" (1 / 100)%R (5, 5, 2, 2)%R] in
  detectObjectsTF initialState None preds = []
  /\ map obj_class (detectObjectsTF readyState (videoRef readyState) preds) = ["phone"]
  /\ (List.length (detectObjectsTF readyState (videoRef readyState) preds) <= 2)%nat.
Proof.
  intros preds. split; [|split].
  - apply (detectObjectsTF_objects initialState None preds). left. reflexivity.
  - vm_compute. reflexivity.
  - apply (detectObjectsTF_objects readyState (videoRef readyState) preds);
      vm_compute; discriminate.
Defined.

(** ** Camera *)

Lemma stopTracks_allEnded m : allEnded (stopTracks m).
Proof.
  unfold allEnded, stopTracks. cbn. apply Forall_forall. intros t Ht.
  apply in_map_iff in Ht. now destruct Ht as (? & <- & _).
Qed.

Lemma stopTracks_idempotent m : stopTracks (stopTracks m) = stopTracks m.
Proof. unfold stopTracks. cbn. now rewrite map_map. Qed.

(** X13: [stopCamera] leaves the camera inactive, every track of the
    stream it holds ended and the video element without a source, so a
    tick that comes afterwards is skipped; the stream ref itself is kept.
    A second call changes nothing. *)
Theorem stopCamera_releases_camera :
  forall (s : State),
    let s' := stopCamera s in
    cameraActive s' = false
    /\ skipped s' = true
    /\ (forall m, streamRef s' = Some m -> allEnded m)
    /\ (forall v, videoRef s' = Some v -> srcObject v = None)
    /\ isNull (streamRef s') = isNull (streamRef s)
    /\ stopCamera s' = s'.
Proof.
  intros s s'. unfold s', stopCamera.
  destruct (videoRef s) as [v|] eqn:Ev; cbn; rewrite ?Ev; cbn.
  - split; [reflexivity|]. split; [unfold skipped; cbn; reflexivity|].
    split.
    { intros m Hm. destruct (streamRef s); [|discriminate].
      injection Hm as <-. apply stopTracks_allEnded. }
    split; [intros w Hw; injection Hw as <-; reflexivity|].
    split; [now destruct (streamRef s)|].
    destruct (streamRef s) as [m|]; cbn; [now rewrite stopTracks_idempotent|reflexivity].
  - split; [reflexivity|]. split; [unfold skipped; cbn; now rewrite Ev|].
    split.
    { intros m Hm. destruct (streamRef s); [|discriminate].
      injection Hm as <-. apply stopTracks_allEnded. }
    split; [intros w Hw; congruence|].
    split; [now destruct (streamRef s)|].
    destruct (streamRef s) as [m|]; cbn; rewrite Ev;
      [now rewrite stopTracks_idempotent|reflexivity].
Qed.

Lemma stopCamera_releases_camera_witness :
  allEnded (mkMediaStream [TrackEnded] 640 480)
  /\ srcObject (mkVideo None 640 480) = None.
Proof.
  destruct (stopCamera_releases_camera readyState) as (_ & _ & Hm & Hv & _).
  split.
  - apply Hm. vm_compute. reflexivity.
  - apply Hv. vm_compute. reflexivity.
Defined.

(** X14: a click on the button while monitoring is off, in any reachable
    state.  If the camera is refused nothing at all changes.  If the
    stream is granted but the element fails to play it (there being an
    element), monitoring and camera stay off and ticks stay skipped,
    while the stream is kept in [streamRef] with its tracks as they came.
    If the element plays the stream, monitoring and camera are on, the
    stream is held and shown by the element, and ticks run from then on
    exactly when the models are loaded and the element is there. *)
Theorem start_outcomes :
  forall (evs : list Event) (stream : MediaStream),
    let s := run initialState evs in
    isMonitoring s = false ->
    handleStartStop Denied s = s
    /\ (let s' := handleStartStop (PlayRejected stream) s in
        videoRef s <> None ->
        isMonitoring s' = false /\ cameraActive s' = false /\ skipped s' = true /\
        streamRef s' = Some stream)
    /\ (let s' := handleStartStop (Playing stream) s in
        isMonitoring s' = true /\ cameraActive s' = true /\
        streamRef s' = Some stream /\
        (forall v, videoRef s' = Some v -> srcObject v = Some stream) /\
        intervalArmed s' = modelsLoaded s /\
        skipped s' = isNull (videoRef s) || negb (modelsLoaded s)).
Proof.
  intros evs stream s Hm.
  destruct (reachable_sound evs) as (_ & _ & _ & _ & _ & (Hcam & _) & _).
  fold s in Hcam. rewrite Hm in Hcam.
  unfold handleStartStop, startCamera. rewrite Hm, Hcam. cbn [negb].
  split; [reflexivity|]. split.
  - cbv zeta. intros Hv. cbn [videoRef set_streamRef].
    destruct (videoRef s) as [v|] eqn:Ev; [|now elim Hv].
    cbn. unfold skipped. cbn. rewrite Hcam, Hm. cbn. repeat split.
  - cbv zeta. cbn [videoRef set_streamRef].
    destruct (videoRef s) as [v|] eqn:Ev; cbn; unfold intervalArmed, skipped; cbn;
      rewrite ?Ev; cbn.
    + repeat split. intros w Hw. injection Hw as <-. reflexivity.
    + repeat split. intros w Hw. discriminate.
Qed.

Lemma start_outcomes_witness :
  let s := run initialState [EvMount; EvLoadModels] in
  handleStartStop Denied s = s
  /\ skipped (handleStartStop (PlayRejected demoStream) s) = true
  /\ skipped (handleStartStop (Playing demoStream) s) = false.
Proof.
  intros s.
  destruct (start_outcomes [EvMount; EvLoadModels] demoStream) as (H1 & H2 & H3).
  - reflexivity.
  - fold s in H1, H2, H3. split; [exact H1|]. split.
    + apply H2. vm_compute. discriminate.
    + destruct H3 as (_ & _ & _ & _ & _ & ->). vm_compute. reflexivity.
Defined.

(** ** Reset and the other handlers *)

(** X15: a reset and any handler other than a tick can be swapped: mounting,
    loading the models and starting or stopping monitoring give the same
    state whether the reset comes before or after them.  Those handlers
    write no statistic, flag or tracker counter, and a reset writes
    nothing else. *)
Theorem reset_commutes_with_lifecycle :
  forall (s : State) (e : Event),
    isTick e = false ->
    resetStats (step s e) = step (resetStats s) e.
Proof.
  intros s e He. destruct e as [| |g| |inp]; try discriminate; try reflexivity.
  cbn [step]. unfold handleStartStop, startCamera, stopCamera, resetStats.
  cbn [isMonitoring cameraActive videoRef streamRef set_stats set_currentDetections
       set_drowsyFrames set_focusLostFrames set_isMonitoring set_streamRef].
  destruct (isMonitoring s), (cameraActive s), g as [|m|m]; cbn;
    destruct (videoRef s); reflexivity.
Qed.

Lemma reset_commutes_with_lifecycle_witness :
  let s := runTicks readyState [phoneFrame] in
  resetStats (step s (EvStartStop Denied)) = step (resetStats s) (EvStartStop Denied).
Proof.
  intros s. apply (reset_commutes_with_lifecycle s (EvStartStop Denied)). reflexivity.
Defined.

(** ** The total and the level *)

Lemma risingTypes_length s inp :
  Z.of_nat (List.length (risingTypes s inp)) =
  fold_right Z.add 0
    (map (fun k => if getKey k (classifierOutputs s inp) && negb (getKey k (currentDetections s))
                   then 1 else 0) allTypes).
Proof.
  unfold risingTypes. induction allTypes as [|k l IH]; [reflexivity|].
  cbn [filter map fold_right].
  destruct (getKey k (classifierOutputs s inp) && negb (getKey k (currentDetections s)));
    cbn [List.length]; lia.
Qed.

(** X16: a tick that runs raises the total by the number of detection
    types whose flag it raises, and by nothing else; that number is at
    most 5, since an absent face and several faces cannot be found in one
    frame. *)
Theorem tick_raises_total_by_rising_flags :
  forall (s : State) (inp : TickInput),
    skipped s = false ->
    getTotalViolations (runDetection s inp) =
      getTotalViolations s + Z.of_nat (List.length (risingTypes s inp))
    /\ (List.length (risingTypes s inp) <= 5)%nat.
Proof.
  intros s inp Hs.
  pose proof (outputs_absent_not_multiple s inp) as Hex.
  rewrite !getTotalViolations_sum.
  pose proof (tick_stats s inp FocusLost Hs) as H1.
  pose proof (tick_stats s inp FaceAbsent Hs) as H2.
  pose proof (tick_stats s inp MultipleFaces Hs) as H3.
  pose proof (tick_stats s inp PhoneDetected Hs) as H4.
  pose proof (tick_stats s inp NotesDetected Hs) as H5.
  pose proof (tick_stats s inp Drowsiness Hs) as H6.
  pose proof (risingTypes_length s inp) as Hlen.
  cbn [allTypes map fold_right] in Hlen.
  cbn [getKey] in H1, H2, H3, H4, H5, H6, Hlen.
  rewrite H1, H2, H3, H4, H5, H6.
  split; [lia|].
  apply Nat2Z.inj_le. rewrite Hlen.
  destruct (faceAbsent (classifierOutputs s inp)), (multipleFaces (classifierOutputs s inp));
    try discriminate; cbn [andb];
    repeat match goal with
           | |- context [if ?b then 1 else 0] => destruct b
           end; cbn; lia.
Qed.

Lemma tick_raises_total_by_rising_flags_witness :
  getTotalViolations (runDetection readyState phoneFrame) = 2
  /\ (List.length (risingTypes readyState phoneFrame) <= 5)%nat.
Proof.
  destruct (tick_raises_total_by_rising_flags readyState phoneFrame) as [H1 H2].
  - reflexivity.
  - split; [rewrite H1; vm_compute; reflexivity|exact H2].
Defined.

Lemma step_total_monotone s e :
  isReset e = false -> getTotalViolations s <= getTotalViolations (step s e).
Proof.
  intros He. rewrite !getTotalViolations_sum.
  pose proof (step_stats_monotone s e FocusLost He).
  pose proof (step_stats_monotone s e FaceAbsent He).
  pose proof (step_stats_monotone s e MultipleFaces He).
  pose proof (step_stats_monotone s e PhoneDetected He).
  pose proof (step_stats_monotone s e NotesDetected He).
  pose proof (step_stats_monotone s e Drowsiness He).
  cbn [getKey] in *. lia.
Qed.

Lemma levelRank_of_total s :
  levelRank (level (getSeverityLevel s)) =
  if getTotalViolations s >=? 20 then 4
  else if getTotalViolations s >=? 15 then 3
  else if getTotalViolations s >=? 8 then 2
  else if getTotalViolations s >=? 3 then 1
  else 0.
Proof.
  unfold getSeverityLevel.
  destruct (getTotalViolations s >=? 20); [reflexivity|].
  destruct (getTotalViolations s >=? 15); [reflexivity|].
  destruct (getTotalViolations s >=? 8); [reflexivity|].
  destruct (getTotalViolations s >=? 3); reflexivity.
Qed.

(** X17: nothing but a reset lowers the total or the level: after a
    mount, a model load, a click on the button or a tick, the total is at
    least what it was and the level is the same or a higher one.  After a
    reset the level is Normal. *)
Theorem level_never_drops_without_reset :
  forall (s : State) (e : Event),
    (isReset e = false ->
     getTotalViolations s <= getTotalViolations (step s e) /\
     levelRank (level (getSeverityLevel s)) <= levelRank (level (getSeverityLevel (step s e))))
    /\ level (getSeverityLevel (resetStats s)) = "Normal".
Proof.
  intros s e. split; [|reflexivity].
  intros He. pose proof (step_total_monotone s e He) as Hle.
  split; [exact Hle|].
  rewrite !levelRank_of_total.
  destruct (Z.geb_spec (getTotalViolations s) 20);
    destruct (Z.geb_spec (getTotalViolations s) 15);
    destruct (Z.geb_spec (getTotalViolations s) 8);
    destruct (Z.geb_spec (getTotalViolations s) 3);
    destruct (Z.geb_spec (getTotalViolations (step s e)) 20);
    destruct (Z.geb_spec (getTotalViolations (step s e)) 15);
    destruct (Z.geb_spec (getTotalViolations (step s e)) 8);
    destruct (Z.geb_spec (getTotalViolations (step s e)) 3); lia.
Qed.

Lemma level_never_drops_without_reset_witness :
  let s := set_stats (mkPerType 0 1 0 0 0 0) readyState in
  level (getSeverityLevel s) = "Normal"
  /\ level (getSeverityLevel (step s (EvTick phoneFrame))) = "Low Risk"
  /\ levelRank "Normal" <= levelRank "Low Risk".
Proof.
  intros s. split; [reflexivity|]. split; [vm_compute; reflexivity|].
  destruct (level_never_drops_without_reset s (EvTick phoneFrame)) as [H _].
  destruct (H eq_refl) as [_ Hr]. exact Hr.
Defined.

(** ** The bars of the statistics cards *)




(** ** Faces in a tick *)

Lemma mainFace_head s inp inp' :
  hd_error (facePredictions inp) = hd_error (facePredictions inp') ->
  mainFace s inp = mainFace s inp'.
Proof.
  intros H. unfold mainFace, detectFacesTF.
  destruct (isNull (blazeFaceModelRef s) || isNull (videoRef s)); [reflexivity|].
  destruct (facePredictions inp) as [|p l], (facePredictions inp') as [|p' l'];
    cbn in *; try discriminate; [reflexivity|]. now injection H as ->.
Qed.

(** X19: on a tick that runs, focus loss and drowsiness are judged on the
    first face alone: two frames with the same first prediction (or both
    with none) and the same draw leave the same focus counter, the same
    drowsiness counter and the same focus-lost, drowsiness and
    face-absent flags, whatever other faces they hold. *)
Theorem only_first_face_is_tracked :
  forall (s : State) (inp inp' : TickInput),
    skipped s = false ->
    hd_error (facePredictions inp) = hd_error (facePredictions inp') ->
    random inp = random inp' ->
    focusLostFrames (runDetection s inp) = focusLostFrames (runDetection s inp')
    /\ drowsyFrames (runDetection s inp) = drowsyFrames (runDetection s inp')
    /\ focusLost (currentDetections (runDetection s inp)) =
       focusLost (currentDetections (runDetection s inp'))
    /\ drowsiness (currentDetections (runDetection s inp)) =
       drowsiness (currentDetections (runDetection s inp'))
    /\ faceAbsent (currentDetections (runDetection s inp)) =
       faceAbsent (currentDetections (runDetection s inp')).
Proof.
  intros s inp inp' Hs Hh Hr.
  pose proof (mainFace_head s inp inp' Hh) as Hmf.
  pose proof (tick_cur s inp FocusLost Hs) as A1.
  pose proof (tick_cur s inp' FocusLost Hs) as B1.
  pose proof (tick_cur s inp Drowsiness Hs) as A2.
  pose proof (tick_cur s inp' Drowsiness Hs) as B2.
  pose proof (tick_cur s inp FaceAbsent Hs) as A3.
  pose proof (tick_cur s inp' FaceAbsent Hs) as B3.
  cbn [getKey classifierOutputs focusLost drowsiness faceAbsent] in A1, B1, A2, B2, A3, B3.
  rewrite A1, B1, A2, B2, A3, B3, !tick_focusLostFrames, !tick_drowsyFrames by assumption.
  rewrite Hmf, Hr. repeat split.
Qed.

Lemma only_first_face_is_tracked_witness :
  let crowd := mkTickInput [centredPrediction; centredPrediction; centredPrediction] [] 0%R in
  focusLostFrames (runDetection readyState crowd) =
  focusLostFrames (runDetection readyState closedEyesFrame)
  /\ drowsyFrames (runDetection readyState crowd) =
     drowsyFrames (runDetection readyState closedEyesFrame).
Proof.
  intros crowd.
  destruct (only_first_face_is_tracked readyState crowd closedEyesFrame) as (H1 & H2 & _);
    [reflexivity|reflexivity|reflexivity|].
  split; assumption.
Defined.

(** X20: in a reachable state in which ticks run, both models are loaded
    and the video element is there, so neither detector takes its early
    return; after the tick the face-absent flag is up exactly when the
    face model returned no prediction, and the multiple-faces flag
    exactly when it returned two or more. *)
Theorem presence_flags :
  forall (evs : list Event) (inp : TickInput),
    let s := run initialState evs in
    skipped s = false ->
    (blazeFaceModelRef s <> None /\ cocoSsdModelRef s <> None /\ videoRef s <> None)
    /\ (faceAbsent (currentDetections (runDetection s inp)) = true <->
        facePredictions inp = [])
    /\ (multipleFaces (currentDetections (runDetection s inp)) = true <->
        (2 <= List.length (facePredictions inp))%nat).
Proof.
  intros evs inp s Hs.
  destruct (skipped_false s Hs) as (Hv & _ & Hm).
  destruct (reachable_modelsConsistent evs Hm) as [Hb Hc]. fold s in Hb, Hc.
  split; [repeat split; congruence|].
  pose proof (tick_cur s inp FaceAbsent Hs) as H1.
  pose proof (tick_cur s inp MultipleFaces Hs) as H2.
  cbn [getKey classifierOutputs faceAbsent multipleFaces] in H1, H2.
  rewrite H1, H2. unfold mainFace, detectFacesTF. rewrite Hb.
  destruct (videoRef s); [|now elim Hv]. cbn [isNull orb].
  rewrite length_map.
  split.
  - destruct (facePredictions inp) as [|p l]; cbn; split; intros H;
      try reflexivity; discriminate.
  - rewrite Z.gtb_ltb, Z.ltb_lt. lia.
Qed.

Lemma presence_flags_witness :
  let pair := mkTickInput [centredPrediction; centredPrediction] [] 1%R in
  multipleFaces (currentDetections (runDetection readyState pair)) = true
  /\ faceAbsent (currentDetections (runDetection readyState emptyFrame)) = true.
Proof.
  intros pair.
  destruct (presence_flags [EvMount; EvLoadModels; EvStartStop (Playing demoStream)] pair)
    as (_ & _ & H1); [vm_compute; reflexivity|].
  destruct (presence_flags [EvMount; EvLoadModels; EvStartStop (Playing demoStream)] emptyFrame)
    as (_ & H2 & _); [vm_compute; reflexivity|].
  rewrite boot_readyState in H1, H2.
  split; [apply H1; cbn; lia|apply H2; reflexivity].
Defined.

(** X21: a tick writes nothing but the counters, the flags, the two
    tracker counters and [detectionResults]: monitoring, camera, model
    and stream state are as before, so a tick never stops or starts the
    ticking. *)
Theorem tick_writes_no_lifecycle :
  forall (s : State) (inp : TickInput),
    sameLifecycle (runDetection s inp) s
    /\ skipped (runDetection s inp) = skipped s
    /\ intervalArmed (runDetection s inp) = intervalArmed s.
Proof.
  intros s inp. pose proof (tick_sameLifecycle s inp) as Hl.
  split; [exact Hl|]. split; [now apply sameLifecycle_skipped|].
  destruct Hl as (H1 & H2 & H3 & _). unfold intervalArmed. now rewrite H1, H2, H3.
Qed.

(** ** Recovery of focus *)

Lemma near_tick s inp :
  skipped s = false -> nearCentre s inp ->
  focusLostFrames (runDetection s inp) = Z.max 0 (focusLostFrames s - 1).
Proof.
  intros Hs (f & Hmf & Hn). rewrite tick_focusLostFrames, Hmf by assumption.
  unfold detectFocusLoss.
  rewrite Hn. reflexivity.
Qed.

Lemma near_run inps :
  forall s, skipped s = false -> 0 <= focusLostFrames s -> nearRun s inps ->
    focusLostFrames (runTicks s inps) =
    Z.max 0 (focusLostFrames s - Z.of_nat (List.length inps))
    /\ skipped (runTicks s inps) = false.
Proof.
  induction inps as [|i l IH]; intros s Hs Hc Hn.
  - cbn. split; [lia|exact Hs].
  - destruct Hn as [Hi Hl]. rewrite runTicks_cons.
    pose proof (near_tick s i Hs Hi) as Ht.
    assert (Hs' : skipped (runDetection s i) = false).
    { rewrite (sameLifecycle_skipped _ _ (tick_sameLifecycle s i)). exact Hs. }
    destruct (IH (runDetection s i) Hs' ltac:(lia) Hl) as [K1 K2].
    split; [|exact K2]. rewrite K1, Ht. cbn [List.length]. lia.
Qed.

Lemma runTicks_focus_flag inps :
  forall s,
    focusLost (currentDetections s) = (focusLostFrames s >=? FOCUS_LOST_FRAMES) ->
    focusLost (currentDetections (runTicks s inps)) =
    (focusLostFrames (runTicks s inps) >=? FOCUS_LOST_FRAMES).
Proof.
  induction inps as [|i l IH]; intros s Hflag; [exact Hflag|].
  rewrite runTicks_cons. apply IH.
  destruct (skipped s) eqn:Hsk.
  - now rewrite runDetection_skipped.
  - pose proof (tick_cur s i FocusLost Hsk) as H1. cbn [getKey] in H1.
    rewrite H1, tick_focusLostFrames by assumption.
    cbn [classifierOutputs focusLost]. apply detectFocusLoss_snd.
Qed.

(** X22: the focus counter decays, it is not reset.  Over a run of ticks
    that run and on each of which the primary face is there and fails
    the drift test of the code (the drift computed in doubles does not
    exceed the computed quarter of the smaller side), the counter goes
    down by one per tick and stops at 0; so after an absence that took
    the counter to c, the focus-lost flag stays up until c - 34 such
    frames have come. *)
Theorem focus_recovers_one_step_per_tick :
  forall (s : State) (inps : list TickInput),
    skipped s = false -> 0 <= focusLostFrames s ->
    focusLost (currentDetections s) = (focusLostFrames s >=? FOCUS_LOST_FRAMES) ->
    nearRun s inps ->
    let s' := runTicks s inps in
    focusLostFrames s' = Z.max 0 (focusLostFrames s - Z.of_nat (List.length inps))
    /\ (focusLost (currentDetections s') = true <->
        34 + Z.of_nat (List.length inps) < focusLostFrames s).
Proof.
  intros s inps Hs Hc Hflag Hn s'.
  destruct (near_run inps s Hs Hc Hn) as [Hcount _]. fold s' in Hcount.
  split; [exact Hcount|].
  pose proof (runTicks_focus_flag inps s Hflag) as Hf. fold s' in Hf.
  rewrite Hf, Hcount. unfold FOCUS_LOST_FRAMES. rewrite Z.geb_le. lia.
Qed.

Lemma centred_nearCentre s inp :
  skipped s = false -> blazeFaceModelRef s = Some tt ->
  videoW s = 640%float -> videoH s = 480%float ->
  hd_error (facePredictions inp) = Some centredPrediction ->
  nearCentre s inp.
Proof.
  intros Hs Hb HW HH Hp. destruct (skipped_false s Hs) as (Hv & _).
  unfold nearCentre, mainFace, detectFacesTF. rewrite Hb.
  destruct (videoRef s) eqn:Ev; [|now elim Hv]. cbn [isNull orb].
  destruct (facePredictions inp) as [|p l]; [discriminate|].
  injection Hp as ->. cbn [map nth_error]. eexists. split; [reflexivity|].
  unfold drift. rewrite HW, HH.
  cbn [centerX centerY fst snd centredPrediction topLeft bottomRight].
  vm_compute. reflexivity.
Qed.

Lemma focus_recovers_one_step_per_tick_witness :
  let s36 := runTicks readyState (repeat emptyFrame 36) in
  focusLost (currentDetections s36) = true
  /\ focusLostFrames (runTicks s36 [closedEyesFrame]) = 35
  /\ focusLost (currentDetections (runTicks s36 [closedEyesFrame])) = true.
Proof.
  intros s36.
  pose proof (runTicks_sameLifecycle (repeat emptyFrame 36) readyState) as Hl.
  fold s36 in Hl.
  assert (Hs : skipped s36 = false) by now rewrite (sameLifecycle_skipped _ _ Hl).
  assert (Hb : blazeFaceModelRef s36 = Some tt).
  { destruct Hl as (_ & _ & _ & _ & _ & _ & -> & _). reflexivity. }
  destruct (readyState_frame 36) as [HW HH]. fold s36 in HW, HH.
  assert (Hc : focusLostFrames s36 = 36) by (vm_compute; reflexivity).
  assert (Hflag : focusLost (currentDetections s36) = true) by (vm_compute; reflexivity).
  destruct (focus_recovers_one_step_per_tick s36 [closedEyesFrame]) as [H1 H2].
  - exact Hs.
  - rewrite Hc. lia.
  - rewrite Hflag, Hc. reflexivity.
  - split; [|exact I]. now apply centred_nearCentre.
  - split; [exact Hflag|]. split.
    + rewrite H1, Hc. reflexivity.
    + apply H2. rewrite Hc. cbn. lia.
Defined.
